(** * The SAR generator's ingestion pipeline ([app.py]), embedded in Rocq

    The development follows the layout of the Python module:
    - Python string helpers used by the module ([lower], [strip],
      [endswith], [in], [join], f-string integer formatting);
    - the interpreter state the module acts on (the pandas objects it
      allocates, the Streamlit calls it makes, the session state) and a
      state-and-exception monad over it;
    - the external libraries (pypdf, python-docx, pandas, python-pptx,
      pathlib, google-genai) as one record of functions;
    - the module's definitions in source order;
    - the properties. *)

From Stdlib Require Import String Ascii List ZArith Lia Bool Arith.
From Stdlib Require Import DecimalString.
Import ListNotations.
Local Open Scope string_scope.

(** ** Python strings

    A [str] is modelled by the bytes of its UTF-8 encoding.  Case mapping
    and whitespace are modelled on the ASCII range, which is where every
    pattern the module matches against lives. *)
Module PyStr.

Definition nl : string := String (ascii_of_nat 10) EmptyString.

(** [bool(s)] for a string. *)
Definition truthy (s : string) : bool :=
  match s with EmptyString => false | String _ _ => true end.

(** [s or ""] where [s] may be [None]. *)
Definition or_empty (s : option string) : string :=
  match s with Some t => if truthy t then t else "" | None => "" end.

Definition is_upper (c : ascii) : bool :=
  let n := nat_of_ascii c in (65 <=? n)%nat && (n <=? 90)%nat.

Definition lower_char (c : ascii) : ascii :=
  if is_upper c then ascii_of_nat (nat_of_ascii c + 32) else c.

(** [s.lower()] *)
Fixpoint lower (s : string) : string :=
  match s with
  | EmptyString => EmptyString
  | String c t => String (lower_char c) (lower t)
  end.

(** [c.isspace()] on ASCII: TAB, LF, VT, FF, CR, FS, GS, RS, US, space. *)
Definition is_space (c : ascii) : bool :=
  let n := nat_of_ascii c in
  ((9 <=? n)%nat && (n <=? 13)%nat) || ((28 <=? n)%nat && (n <=? 32)%nat).

Fixpoint lstrip (s : string) : string :=
  match s with
  | EmptyString => EmptyString
  | String c t => if is_space c then lstrip t else s
  end.

Fixpoint rev_onto (s acc : string) : string :=
  match s with
  | EmptyString => acc
  | String c t => rev_onto t (String c acc)
  end.

Definition rev (s : string) : string := rev_onto s EmptyString.

Definition rstrip (s : string) : string := rev (lstrip (rev s)).

(** [s.strip()] *)
Definition strip (s : string) : string := rstrip (lstrip s).

(** [s.endswith(suffix)] *)
Definition endswith (s suffix : string) : bool :=
  let n := String.length s in
  let m := String.length suffix in
  (m <=? n)%nat && String.eqb (substring (n - m) m s) suffix.

(** [sub in s] *)
Fixpoint contains (sub s : string) : bool :=
  prefix sub s ||
  match s with
  | EmptyString => false
  | String _ t => contains sub t
  end.

(** [sep.join(parts)] *)
Definition join (sep : string) (parts : list string) : string :=
  String.concat sep parts.

(** [f"{i}"] for an [int]. *)
Definition str_of_int (i : Z) : string := NilZero.string_of_int (Z.to_int i).

(** [l[:n]] for a list and an [int] bound, negative bounds counting from
    the end as Python slices do. *)
Definition slice_to {A} (n : Z) (l : list A) : list A :=
  if (0 <=? n)%Z then firstn (Z.to_nat n) l
  else firstn (Z.to_nat (Z.of_nat (List.length l) + n)) l.

End PyStr.
Import PyStr.

(** ** Exceptions and outcomes

    Only the distinction the module's [except] clauses make is kept:
    [ImportError] against every other [Exception]. *)
Inductive exn : Type :=
| ImportError (msg : string)
| Exception (msg : string).

(** [str(e)] *)
Definition exn_msg (e : exn) : string :=
  match e with ImportError m => m | Exception m => m end.

Inductive outcome (A : Type) : Type :=
| Return (a : A)
| Raise (e : exn).
Arguments Return {A} a.
Arguments Raise {A} e.

(** ** Data handled by the module *)

(** A pandas [DataFrame] read with [dtype=str]: column labels and rows of
    cells, a cell being a string or missing ([NaN]). *)
Record DataFrame : Type := mkDataFrame {
  columns : list string;
  rows : list (list (option string))
}.

(** [df.shape] *)
Definition shape (d : DataFrame) : Z * Z :=
  (Z.of_nat (List.length (rows d)), Z.of_nat (List.length (columns d))).

(** The frame [df.head(n)] denotes. *)
Definition head_frame (n : Z) (d : DataFrame) : DataFrame :=
  mkDataFrame (columns d) (slice_to n (rows d)).

(** The frame [df.iloc[:, :n]] denotes: the slice bound is resolved
    against the column axis and applied to every row. *)
Definition iloc_cols_frame (n : Z) (d : DataFrame) : DataFrame :=
  let k := List.length (slice_to n (columns d)) in
  mkDataFrame (firstn k (columns d)) (map (firstn k) (rows d)).

(** A workbook opened by [pd.ExcelFile]: its sheets in workbook order,
    each with what [xls.parse(sheet_name=..., dtype=str)] does for it. *)
Definition Workbook : Type := list (string * outcome DataFrame).

Definition sheet_names (xls : Workbook) : list string := map fst xls.

Definition xls_parse (xls : Workbook) (sheet_name : string) : outcome DataFrame :=
  match find (fun p => String.eqb (fst p) sheet_name) xls with
  | Some p => snd p
  | None => Raise (Exception ("Worksheet named '" ++ sheet_name ++ "' not found"))
  end.

(** A PDF page, as far as the module looks at it: what
    [page.extract_text()] does ([None], a string, or an exception). *)
Definition Page : Type := outcome (option string).

(** python-pptx objects. *)
Record TextFrame : Type := mkTextFrame { tf_text : option string }.

Record Table : Type := mkTable { tbl_rows : list (list string) }.

(** A shape: [sh_text_frame] is [Some] when the shape has the attribute
    [has_text_frame] and it is true, [sh_table] likewise for [has_table],
    and [sh_shapes] is [Some] when the shape has a [shapes] attribute
    (a group). *)
#[local] Unset Elimination Schemes.
Inductive Shape : Type :=
  mkShape (sh_text_frame : option TextFrame)
          (sh_table : option Table)
          (sh_shapes : option (list Shape)).

#[local] Set Elimination Schemes.

Definition sh_text_frame (sh : Shape) : option TextFrame :=
  match sh with mkShape tf _ _ => tf end.
Definition sh_table (sh : Shape) : option Table :=
  match sh with mkShape _ tb _ => tb end.
Definition sh_shapes (sh : Shape) : option (list Shape) :=
  match sh with mkShape _ _ g => g end.

(** [slide.has_notes_slide] is [notes_slide <> None]. *)
Record NotesSlide : Type := mkNotesSlide { notes_text_frame : option TextFrame }.

Record Slide : Type := mkSlide {
  slide_shapes : list Shape;
  notes_slide : option NotesSlide
}.

(** The response object of the generation service, with the two
    attributes the module probes with [getattr(resp, ..., None)]. *)
Record Response : Type := mkResponse {
  resp_text : option string;
  resp_output_text : option string
}.

(** A Streamlit [UploadedFile]: an in-memory byte stream with a name and a
    declared media type (both [str]).  Every extractor rewinds the stream
    with [file.seek(0)] before it reads it, so what a parser is handed is
    always the whole content, [data]. *)
Record UploadedFile : Type := mkUploadedFile {
  name : string;
  type : string;
  data : string
}.

(** ** Interpreter state and the monad of the module's code *)

(** Calls with an effect outside the module. *)
Inductive event : Type :=
| st_error (msg : string)
| st_warning (msg : string)
| st_exception (e : exn)
| genai_Client_new (api_key : string)
| generate_content (model contents : string).

(** References to pandas objects are positions in the store. *)
Abbreviation ref := nat (only parsing).

Record World : Type := mkWorld {
  frames : list DataFrame;          (* pandas objects, by reference *)
  events : list event;              (* Streamlit and service calls so far *)
  report_output : string            (* st.session_state.report_output *)
}.

Definition M (A : Type) : Type := World -> outcome A * World.

Definition ret {A} (a : A) : M A := fun w => (Return a, w).

Definition raise {A} (e : exn) : M A := fun w => (Raise e, w).

Definition bind {A B} (m : M A) (k : A -> M B) : M B :=
  fun w =>
    match m w with
    | (Return a, w') => k a w'
    | (Raise e, w') => (Raise e, w')
    end.

Notation "x <- m ;; k" := (bind m (fun x => k))
  (at level 61, m at next level, right associativity).
Notation "m ;;; k" := (bind m (fun _ => k))
  (at level 61, right associativity).

(** [try: body  except Exception as e: handler(e)] *)
Definition try_except {A} (body : M A) (handler : exn -> M A) : M A :=
  fun w =>
    match body w with
    | (Return a, w') => (Return a, w')
    | (Raise e, w') => handler e w'
    end.

(** A library call that has no effect on the state. *)
Definition call {A} (o : outcome A) : M A := fun w => (o, w).

Definition emit (e : event) : M unit :=
  fun w => (Return tt, mkWorld (frames w) (events w ++ [e]) (report_output w)).

Definition set_report_output (s : string) : M unit :=
  fun w => (Return tt, mkWorld (frames w) (events w) s).

(** [for x in xs: acc = body(x, acc)] *)
Fixpoint for_each {A S} (xs : list A) (body : A -> S -> M S) (acc : S) : M S :=
  match xs with
  | [] => ret acc
  | x :: rest => acc' <- body x acc ;; for_each rest body acc'
  end.

(** pandas objects live in the store; every operation the module uses
    reads its operand and allocates its result. *)
Definition alloc (d : DataFrame) : M ref :=
  fun w => (Return (List.length (frames w)),
            mkWorld (frames w ++ [d]) (events w) (report_output w)).

Definition deref (r : ref) : M DataFrame :=
  fun w =>
    match nth_error (frames w) r with
    | Some d => (Return d, w)
    | None => (Raise (Exception "invalid DataFrame reference"), w)
    end.

Definition df_copy (df : ref) : M ref := d <- deref df ;; alloc d.
Definition df_shape (df : ref) : M (Z * Z) := d <- deref df ;; ret (shape d).
Definition df_head (df : ref) (n : Z) : M ref := d <- deref df ;; alloc (head_frame n d).
Definition df_iloc_cols (df : ref) (n : Z) : M ref :=
  d <- deref df ;; alloc (iloc_cols_frame n d).

(** ** The external libraries

    What the module imports and calls, as functions of the bytes (or
    values) they are given.  Every constructor and parser may raise. *)
Record Libraries : Type := mkLibraries {
  (* pypdf: [PdfReader(file).pages] *)
  PdfReader : string -> outcome (list Page);
  (* python-docx: the paragraph texts of [Document(bytes)] *)
  Document : string -> outcome (list string);
  (* pandas *)
  read_csv : string -> outcome DataFrame;
  ExcelFile : string -> option string -> outcome Workbook;
  to_csv : DataFrame -> string;
  (* python-pptx: the slides of [Presentation(bytes)] *)
  Presentation : string -> outcome (list Slide);
  (* pathlib: [Path(s).suffix] *)
  Path_suffix : string -> string;
  (* google-genai *)
  genai_Client : string -> outcome unit;
  models_generate_content : string -> string -> string -> outcome Response
}.

(** ** Module constants *)

Definition MAX_ROWS : Z := 300.
Definition MAX_COLS : Z := 50.

(** A [dict] literal with [int] keys, in insertion order. *)
Definition SAR_ITEMS : list (Z * string) := [
  (1, "I-1.1ก(1)(2)(3) การชี้นำองค์กรโดยผู้นำระดับสูง");
  (2, "I-1.1ข การสื่อสาร สร้างความผูกพันโดยผู้นำ**");
  (3, "I-1.1ค(1)(2)(3) การสร้างสิ่งแวดล้อมที่เอื้อต่อการพัฒนาและความสำเร็จขององค์กร**");
  (4, "I-1.2ก(1)(2) ระบบกำกับดูแลกิจการ การประเมินผู้นำ/ระบบการนำ");
  (5, "I-1.2ก(3) ระบบกำกับดูแลทางคลินิก**");
  (6, "I-1.2ข(1)(2)(3),ค(1)(2) การปฏิบัติตามกฎหมาย การทำประโยชน์ให้สังคมและการดำเนินงานอย่างมีจริยธรรม");
  (7, "I-2.1ก(1)(2)(3)(4) กระบวนการจัดทำ วางแผนกลยุทธ์และการวิเคราะห์ข้อมูล **");
  (8, "I-2.1ข(1)(2)(3) วัตถุประสงค์เชิงกลยุทธ์...");
  (9, "I-2.2ก(1)(2)(3)(4) การจัดทำแผนปฏิบัติการ...");
  (10, "I-2.2ก(5), ข การกำหนดตัวชี้วัด...");
  (11, "I-3.1ก(1) การรับฟัง/เรียนรู้ความต้องการ...");
  (82, "III-6 การดูแลต่อเนื่อง**")
]%Z.

(** [d.keys()], [d.get(k)] and [k in d] for such a dictionary. *)
Definition dict_keys {V} (d : list (Z * V)) : list Z := map fst d.

Definition dict_get {V} (d : list (Z * V)) (k : Z) : option V :=
  match find (fun p => Z.eqb (fst p) k) d with
  | Some p => Some (snd p)
  | None => None
  end.

Definition KNOWLEDGE_BASE : string :=
  nl ++
  "- HA Standard 5th Edition: ..." ++ nl ++
  "- SPA Manuals (Part I, II, III): ..." ++ nl ++
  "- 3P Framework (Purpose-Process-Performance): ..." ++ nl ++
  "- SAR Structure: ..." ++ nl.

(** ** Helper: common *)

Definition _limit_df (df : ref) (max_rows max_cols : Z) : M ref :=
  df <- df_copy df ;;
  s <- df_shape df ;;
  df <- (if (fst s >? max_rows)%Z then df_head df max_rows else ret df) ;;
  s <- df_shape df ;;
  df <- (if (snd s >? max_cols)%Z then df_iloc_cols df max_cols else ret df) ;;
  ret df.

(** ** Helper: PPTX (the part that does not touch the state) *)

Definition _extract_text_from_table (tbl : Table) : string :=
  join nl (map (fun r => join "," (map strip r)) (tbl_rows tbl)).

(** The body of the loop of [_walk_shapes] for one shape; [out_parts] is
    the list the Python code appends to, passed in and returned. *)
Fixpoint _walk_shape (sh : Shape) (out_parts : list string) : list string :=
  match sh with
  | mkShape text_frame table shapes =>
      (* text box / placeholder *)
      let out_parts :=
        match text_frame with
        | Some tf =>
            let txt := or_empty (tf_text tf) in
            if truthy (strip txt) then (out_parts ++ [strip txt])%list else out_parts
        | None => out_parts
        end in
      (* table *)
      let out_parts :=
        match table with
        | Some tbl => (out_parts ++ [_extract_text_from_table tbl])%list
        | None => out_parts
        end in
      (* group *)
      match shapes with
      | Some children => fold_left (fun out child => _walk_shape child out) children out_parts
      | None => out_parts
      end
  end.

Definition _walk_shapes (shapes : list Shape) (out_parts : list string) : list string :=
  fold_left (fun out sh => _walk_shape sh out) shapes out_parts.

(** [a or b] for two values that are a string or [None]. *)
Definition py_or (a b : option string) : option string :=
  match a with
  | Some s => if truthy s then a else b
  | None => b
  end.

(** [bool(x)] for a string or [None]. *)
Definition opt_truthy (a : option string) : bool :=
  match a with Some s => truthy s | None => false end.

(** [bool(xs)] for a list. *)
Definition list_truthy {A} (xs : list A) : bool :=
  match xs with [] => false | _ :: _ => true end.

Definition dq : string := String (ascii_of_nat 34) EmptyString.

(** [prompt_tmpl.substitute(sar_item=..., knowledge_base=..., context_data=...)]:
    the dedented template with its five placeholders filled in. *)
Definition prompt_tmpl_substitute (sar_item knowledge_base context_data : string) : string :=
  ("คุณคือผู้เชี่ยวชาญด้านการรับรองคุณภาพโรงพยาบาลในประเทศไทย (Hospital Accreditation) ที่มีความสามารถในการเขียนรายงานประเมินตนเอง (Self-Assessment Report - SAR) ตามมาตรฐาน HA ฉบับที่ 5

**ภารกิจของคุณ:**
เขียนรายงาน SAR สำหรับหัวข้อต่อไปนี้:
**")
  ++ sar_item
  ++ ("**

**ฐานความรู้ของคุณ:**
")
  ++ knowledge_base
  ++ ("

**ข้อมูลนำเข้า (จากไฟล์และข้อความที่ผู้ใช้อัปโหลด):**
```
")
  ++ context_data
  ++ ("
```
**คำสั่งหลัก (Rule-Based Process):**

**ขั้นตอนที่ 1: การวิเคราะห์ความเกี่ยวข้อง (Relevance Analysis)**
เปรียบเทียบเนื้อหาใน " ++ dq ++ "ข้อมูลนำเข้า" ++ dq ++ " กับหัวข้อ **" ++ dq)
  ++ sar_item
  ++ (dq ++ "** แล้วตัดสินใจว่าพอเพียงหรือไม่

**ขั้นตอนที่ 2: ดำเนินการตามผลการวิเคราะห์**

**กรณีที่ 1: ข้อมูลเพียงพอ**
เขียนรายงาน 4 ส่วน: (i) บริบท, (ii) ประเด็น/แผนการพัฒนา, (iii) ผลที่โดดเด่น, (iv) ผลลัพธ์
- (i) บริบท: สรุปภาพรวม/นโยบาย/สถานการณ์ที่เกี่ยวข้อง อ้างอิงจากข้อมูลที่ได้รับ
- (ii) ประเด็น/แผน:
  1) ฉบับเต็ม: ทุกย่อหน้าเริ่มด้วย " ++ dq ++ "เพื่อ..." ++ dq ++ " และเล่าตามลำดับ วัตถุประสงค์→ทำอะไร→ผลเปลี่ยนแปลง→ช่องว่าง
  2) ฉบับสรุป ≤400 ตัวอักษร หัวข้อ " ++ dq ++ "**ii (สรุป ≤400 ตัวอักษร – ทางเลือก):**" ++ dq ++ "
- (iii) โดดเด่น: 1–2 ประโยคสั้นๆ เน้นใจความสำคัญเท่านั้น
- (iv) ผลลัพธ์: สรุปเชิงคุณภาพ/เชิงปริมาณ ปิดด้วยหมายเหตุเรื่อง KPI ย้อนหลัง 3–5 ปีให้ผู้ใช้วิเคราะห์เอง

**กรณีที่ 2: ข้อมูลไม่เพียงพอ**
ตอบกลับข้อความนี้เท่านั้น:
" ++ dq ++ "**[AI Analysis]:** จากการตรวจสอบไฟล์และข้อมูลที่ท่านให้มา ไม่พบเนื้อหาที่เกี่ยวข้องโดยตรงกับหัวข้อ **'")
  ++ sar_item
  ++ ("'** ครับ/ค่ะ กรุณาอัปโหลดเอกสารที่ตรงกับหัวข้อที่เลือก เพื่อให้ AI สามารถสร้างรายงานได้อย่างถูกต้อง" ++ dq ++ "

**ข้อบังคับเพิ่มเติม**
- อ้างอิงเฉพาะข้อมูลนำเข้าที่ให้มา
- ระบุชื่อไฟล์/ชีท/สไลด์/หน้า เมื่ออ้างอิง
").

Section Pipeline.

Variable lib : Libraries.

(** ** Helper: PDF

    Each extractor is one [try] block, named [*_try] here, under its
    [except] clauses. *)
Definition pdf_try (file : UploadedFile) : M string :=
  reader <- call (PdfReader lib (data file)) ;;
  for_each reader
    (fun page text =>
       page_text <- call page ;;
       ret (if opt_truthy page_text then text ++ or_empty page_text ++ nl else text))
    "".

Definition extract_text_from_pdf (file : UploadedFile) : M string :=
  try_except (pdf_try file)
    (fun e =>
       emit (st_error ("Error reading PDF file " ++ name file ++ ": " ++ exn_msg e)) ;;;
       ret "").

(** ** Helper: DOCX *)
Definition docx_try (file : UploadedFile) : M string :=
  paragraphs <- call (Document lib (data file)) ;;
  ret (join nl paragraphs).

Definition extract_text_from_docx (file : UploadedFile) : M string :=
  try_except (docx_try file)
    (fun e =>
       emit (st_error ("Error reading DOCX file " ++ name file ++ ": " ++ exn_msg e)) ;;;
       ret "").

(** ** Helper: CSV *)
Definition csv_try (file : UploadedFile) : M string :=
  d <- call (read_csv lib (data file)) ;;
  df <- alloc d ;;
  df <- _limit_df df MAX_ROWS MAX_COLS ;;
  d <- deref df ;;
  ret (to_csv lib d).

Definition extract_text_from_csv (file : UploadedFile) : M string :=
  try_except (csv_try file)
    (fun e =>
       emit (st_error ("Error reading CSV file " ++ name file ++ ": " ++ exn_msg e)) ;;;
       ret "").

(** ** Helper: Excel *)
Definition excel_engine (file : UploadedFile) : option string :=
  let ext := lower (Path_suffix lib (name file)) in
  if String.eqb ext ".xlsx" || String.eqb ext ".xlsm" then Some "openpyxl"
  else if String.eqb ext ".xls" then Some "xlrd"
  else None.

Definition excel_import_message : string :=
  "ขาดไลบรารีอ่าน Excel:" ++ nl ++
  "• .xlsx/.xlsm ต้องมี openpyxl" ++ nl ++
  "• .xls ต้องมี xlrd".

Definition excel_try (file : UploadedFile) : M string :=
  let engine := excel_engine file in
  xls <- call (ExcelFile lib (data file) engine) ;;
  parts <- for_each (sheet_names xls)
    (fun sheet_name (parts : list string) =>
       d <- call (xls_parse xls sheet_name) ;;
       df <- alloc d ;;
       df <- _limit_df df MAX_ROWS MAX_COLS ;;
       d <- deref df ;;
       let csv_text := to_csv lib d in
       let part := "[Sheet: " ++ sheet_name ++ "]" ++ nl ++ csv_text ++ nl in
       ret (parts ++ [part])%list)
    [] ;;
  ret (join nl parts).

Definition extract_text_from_excel (file : UploadedFile) : M string :=
  try_except (excel_try file)
    (fun e =>
       match e with
       | ImportError _ =>
           emit (st_error excel_import_message) ;;;
           emit (st_exception e) ;;;
           ret ""
       | Exception _ =>
           emit (st_error ("Error reading Excel file " ++ name file ++ ": " ++ exn_msg e)) ;;;
           ret ""
       end).

(** ** Helper: PPTX *)

(** The body of the slide loop: the text of slide number [i]. *)
Definition slide_text (i : Z) (slide : Slide) : string :=
  let slide_parts := ["[Slide " ++ str_of_int i ++ "]"] in
  let slide_parts := _walk_shapes (slide_shapes slide) slide_parts in
  (* notes *)
  let slide_parts :=
    match notes_slide slide with
    | Some ns =>
        match notes_text_frame ns with
        | Some tf =>
            let note := or_empty (tf_text tf) in
            let block := "[Notes]" ++ nl ++ strip note in
            if truthy (strip note) then (slide_parts ++ [block])%list else slide_parts
        | None => slide_parts
        end
    | None => slide_parts
    end in
  join nl slide_parts.

(** [for i, slide in enumerate(slides, start=i): parts.append(...)] *)
Fixpoint slides_text (i : Z) (slides : list Slide) (parts : list string) : list string :=
  match slides with
  | [] => parts
  | slide :: rest => slides_text (i + 1) rest (parts ++ [slide_text i slide])%list
  end.

Definition pptx_try (file : UploadedFile) : M string :=
  prs <- call (Presentation lib (data file)) ;;
  let parts := slides_text 1 prs [] in
  ret (join (nl ++ nl) parts).

Definition extract_text_from_pptx (file : UploadedFile) : M string :=
  try_except (pptx_try file)
    (fun e =>
       emit (st_error ("Error reading PPTX file " ++ name file ++ ": " ++ exn_msg e)) ;;;
       ret "").

(** ** Aggregate all input *)

Definition start_of_file (file : UploadedFile) : string :=
  "--- START OF FILE: " ++ name file ++ " ---" ++ nl ++ nl.

Definition end_of_file (file : UploadedFile) : string :=
  nl ++ nl ++ "--- END OF FILE: " ++ name file ++ " ---" ++ nl ++ nl.

(** The body of the loop over [uploaded_files]; [file.name] and
    [file.type] are strings, on which [x or ""] is [x]. *)
Definition get_all_input_text_file (file : UploadedFile) (full_text : string) : M string :=
  let full_text := full_text ++ start_of_file file in
  let name' := lower (name file) in
  let mime := lower (type file) in
  full_text <-
    try_except
      (if endswith name' ".pdf" || contains "pdf" mime then
         t <- extract_text_from_pdf file ;; ret (full_text ++ t)
       else if endswith name' ".docx" || contains "wordprocessingml" mime then
         t <- extract_text_from_docx file ;; ret (full_text ++ t)
       else if (endswith name' ".xlsx" || endswith name' ".xlsm")
               || contains "officedocument.spreadsheetml" mime then
         t <- extract_text_from_excel file ;; ret (full_text ++ t)
       else if endswith name' ".xls" || String.eqb mime "application/vnd.ms-excel" then
         t <- extract_text_from_excel file ;; ret (full_text ++ t)
       else if endswith name' ".csv" || contains "text/csv" mime then
         t <- extract_text_from_csv file ;; ret (full_text ++ t)
       else if endswith name' ".pptx"
               || contains "officedocument.presentationml.presentation" mime then
         t <- extract_text_from_pptx file ;; ret (full_text ++ t)
       else
         emit (st_warning ("Unsupported file type: " ++ name file ++ ". Skipping.")) ;;;
         ret full_text)
      (fun e =>
         emit (st_error ("Error reading file " ++ name file ++ ": " ++ exn_msg e)) ;;;
         ret full_text) ;;
  ret (full_text ++ end_of_file file).

Definition user_notes_block (additional_context : string) : string :=
  "--- START OF ADDITIONAL USER NOTES ---" ++ nl ++ nl ++ additional_context
  ++ nl ++ nl ++ "--- END OF ADDITIONAL USER NOTES ---" ++ nl ++ nl.

Definition get_all_input_text (uploaded_files : list UploadedFile)
    (additional_context : string) : M (string * bool) :=
  let full_text := "" in
  if negb (list_truthy uploaded_files) && negb (truthy additional_context) then
    ret ("", false)
  else
    full_text <-
      (if list_truthy uploaded_files
       then for_each uploaded_files get_all_input_text_file full_text
       else ret full_text) ;;
    let full_text :=
      if truthy additional_context
      then full_text ++ user_notes_block additional_context
      else full_text in
    ret (full_text, true).

(** ** Gemini call *)
Definition generate_sar_section (api_key sar_item context_data : string)
    : M (option string) :=
  try_except
    (emit (genai_Client_new api_key) ;;;
     call (genai_Client lib api_key) ;;;
     let prompt := prompt_tmpl_substitute sar_item KNOWLEDGE_BASE context_data in
     emit (generate_content "gemini-2.5-flash" prompt) ;;;
     resp <- call (models_generate_content lib api_key "gemini-2.5-flash" prompt) ;;
     ret (py_or (resp_text resp) (resp_output_text resp)))
    (fun e =>
       emit (st_error ("An error occurred while calling the Gemini API: " ++ exn_msg e)) ;;;
       emit (st_error "เคล็ดลับ: ตรวจสอบ API Key/สิทธิ์ และชื่อโมเดลว่ารองรับ generateContent") ;;;
       ret None).

(** ** UI *)

(** [sar_options = [f"{key}. {value}" for key, value in SAR_ITEMS.items()]] *)
Definition sar_options : list string :=
  map (fun kv => str_of_int (fst kv) ++ ". " ++ snd kv) SAR_ITEMS.

(** The [if generate_button:] block. *)
Definition generate_button_handler (GEMINI_API_KEY : string) (generate_button : bool)
    (selected_option_str : option string) (uploaded_files : list UploadedFile)
    (additional_context : string) : M unit :=
  if generate_button then
    if negb (opt_truthy selected_option_str) then
      emit (st_error "กรุณาเลือกหัวข้อ SAR ที่ต้องการทำ")
    else if negb (list_truthy uploaded_files) && negb (truthy additional_context) then
      emit (st_error "กรุณาอัปโหลดไฟล์อย่างน้อย 1 ไฟล์ หรือใส่ข้อมูลเพิ่มเติม")
    else
      r <- get_all_input_text uploaded_files additional_context ;;
      let context_data := fst r in
      let files_ok := snd r in
      if files_ok then
        generated_report <-
          generate_sar_section GEMINI_API_KEY (or_empty selected_option_str) context_data ;;
        if opt_truthy generated_report then
          set_report_output (or_empty generated_report)
        else
          set_report_output "" ;;;
          emit (st_error "ไม่สามารถสร้างรายงานได้ กรุณาตรวจสอบข้อผิดพลาดและลองใหม่")
      else
        emit (st_error "ไม่สามารถดึงข้อมูลจากไฟล์ที่อัปโหลดได้ กรุณาตรวจสอบไฟล์อีกครั้ง")
  else ret tt.

End Pipeline.

(** * Notions used to state the properties *)

(** The frame [_limit_df] returns for a frame [d], as a function. *)
Definition limited (max_rows max_cols : Z) (d : DataFrame) : DataFrame :=
  let d1 := if (fst (shape d) >? max_rows)%Z then head_frame max_rows d else d in
  if (snd (shape d1) >? max_cols)%Z then iloc_cols_frame max_cols d1 else d1.

(** A frame is rectangular: every row has one cell per column. *)
Definition rectangular (d : DataFrame) : Prop :=
  Forall (fun r => List.length r = List.length (columns d)) (rows d).

(** The leading [max_rows] rows and leading [max_cols] columns of a frame. *)
Definition leading (max_rows max_cols : nat) (d : DataFrame) : DataFrame :=
  mkDataFrame (firstn max_cols (columns d))
              (map (firstn max_cols) (firstn max_rows (rows d))).

(** [yields m o evs]: from every state, [m] ends with outcome [o], has made
    exactly the calls [evs], has only allocated pandas objects and has left
    the session state alone. *)
Definition yields {A} (m : M A) (o : outcome A) (evs : list event) : Prop :=
  forall w, exists fr,
    m w = (o, mkWorld (frames w ++ fr) (events w ++ evs) (report_output w)).

(** The calls of the generation client among a list of events. *)
Definition is_generation_call (e : event) : bool :=
  match e with
  | genai_Client_new _ => true
  | generate_content _ _ => true
  | _ => false
  end.

Definition generation_calls (evs : list event) : list event :=
  filter is_generation_call evs.

(** The formats the aggregator knows, in the order it tests them. *)
Inductive format : Type := PDF | DOCX | XLSX | XLS | CSV | PPTX.

Definition formats_in_order : list format := [PDF; DOCX; XLSX; XLS; CSV; PPTX].

Definition suffix_matches (k : format) (lname : string) : bool :=
  match k with
  | PDF => endswith lname ".pdf"
  | DOCX => endswith lname ".docx"
  | XLSX => endswith lname ".xlsx" || endswith lname ".xlsm"
  | XLS => endswith lname ".xls"
  | CSV => endswith lname ".csv"
  | PPTX => endswith lname ".pptx"
  end.

(** The media-type test of each format: a substring test, except for the
    legacy spreadsheet format, which compares the whole string. *)
Definition media_type_matches (k : format) (lmime : string) : bool :=
  match k with
  | PDF => contains "pdf" lmime
  | DOCX => contains "wordprocessingml" lmime
  | XLSX => contains "officedocument.spreadsheetml" lmime
  | XLS => String.eqb lmime "application/vnd.ms-excel"
  | CSV => contains "text/csv" lmime
  | PPTX => contains "officedocument.presentationml.presentation" lmime
  end.

(** The first format, in order, whose suffix test or media-type test
    succeeds on the lower-cased name and media type. *)
Definition dispatch (file : UploadedFile) : option format :=
  find (fun k => suffix_matches k (lower (name file))
                 || media_type_matches k (lower (type file)))
       formats_in_order.

Definition extractor (lib : Libraries) (k : format) : UploadedFile -> M string :=
  match k with
  | PDF => extract_text_from_pdf lib
  | DOCX => extract_text_from_docx lib
  | XLSX => extract_text_from_excel lib
  | XLS => extract_text_from_excel lib
  | CSV => extract_text_from_csv lib
  | PPTX => extract_text_from_pptx lib
  end.

Definition empty_world : World := mkWorld [] [] "".

(** What the extractor chosen for [file] returns (nothing when no format
    matches); the lemmas below show it does not depend on the state. *)
Definition extracted_text (lib : Libraries) (file : UploadedFile) : string :=
  match dispatch file with
  | Some k =>
      match fst (extractor lib k file empty_world) with
      | Return t => t
      | Raise _ => ""
      end
  | None => ""
  end.

(** The dispatch rule as the specification words it: the suffix decides
    when one matches, otherwise the first media-type marker contained in
    the declared type decides. *)
Definition media_type_contains (k : format) (lmime : string) : bool :=
  match k with
  | XLS => contains "application/vnd.ms-excel" lmime
  | _ => media_type_matches k lmime
  end.

Definition dispatch_suffix_then_media_type (file : UploadedFile) : option format :=
  match find (fun k => suffix_matches k (lower (name file))) formats_in_order with
  | Some k => Some k
  | None => find (fun k => media_type_contains k (lower (type file))) formats_in_order
  end.

(** Size of a shape forest: one per shape, plus the shapes inside groups. *)
Fixpoint shape_size (sh : Shape) : nat :=
  match sh with
  | mkShape _ _ shapes =>
      S (match shapes with
         | Some children => fold_right (fun c n => shape_size c + n) 0 children
         | None => 0
         end)
  end.

Definition shapes_size (shapes : list Shape) : nat :=
  fold_right (fun c n => shape_size c + n) 0 shapes.

(** [walk_call children shapes]: the call [_walk_shapes(shapes, ...)] makes
    the recursive call [_walk_shapes(children, ...)]. *)
Inductive walk_call : list Shape -> list Shape -> Prop :=
| walk_call_group (shapes : list Shape) (sh : Shape) (children : list Shape) :
    In sh shapes -> sh_shapes sh = Some children -> walk_call children shapes.

(** What one shape contributes itself: its text frame, then its table. *)
Definition own_parts (sh : Shape) (out_parts : list string) : list string :=
  let out_parts :=
    match sh_text_frame sh with
    | Some tf =>
        let txt := or_empty (tf_text tf) in
        if truthy (strip txt) then (out_parts ++ [strip txt])%list else out_parts
    | None => out_parts
    end in
  match sh_table sh with
  | Some tbl => (out_parts ++ [_extract_text_from_table tbl])%list
  | None => out_parts
  end.

(** A slide without speaker notes: no notes slide, no notes text frame, or
    a notes text that is blank. *)
Definition no_notes (ns : option NotesSlide) : bool :=
  match ns with
  | None => true
  | Some n =>
      match notes_text_frame n with
      | None => true
      | Some tf => negb (truthy (strip (or_empty (tf_text tf))))
      end
  end.

(** The state after allocating the frames [fr]. *)
Definition grown (w : World) (fr : list DataFrame) : World :=
  mkWorld (frames w ++ fr) (events w) (report_output w).

(** The objects [_limit_df] allocates for a frame [d]: the copy, then the
    truncated frames. *)
Definition limit_allocs (max_rows max_cols : Z) (d : DataFrame) : list DataFrame :=
  let d1 := if (fst (shape d) >? max_rows)%Z then head_frame max_rows d else d in
  [d] ++ (if (fst (shape d) >? max_rows)%Z then [d1] else [])
      ++ (if (snd (shape d1) >? max_cols)%Z then [iloc_cols_frame max_cols d1] else []).

(** [total m]: [m] ends, with the same outcome and the same calls from
    every state. *)
Definition total {A} (m : M A) : Prop := exists o evs, yields m o evs.

(** [never_raises m]: from every state [m] returns a value. *)
Definition never_raises {A} (m : M A) : Prop :=
  forall w, exists a w', m w = (Return a, w').

(** [caught_by body extractor diagnostic]: the [try] block [body] ends; when
    it returns [t] so does the extractor, and when it raises [e] the
    extractor makes the calls [diagnostic e] and returns the empty string. *)
Definition caught_by (body extractor : M string) (diagnostic : exn -> list event)
    : Prop :=
  exists o evs, yields body o evs /\
    match o with
    | Return t => yields extractor (Return t) evs
    | Raise e => yields extractor (Return ""%string) (evs ++ diagnostic e)
    end.

(** Concatenation of a list of strings, in order. *)
Definition concat_all (l : list string) : string := fold_right append "" l.

(** The block of one artifact and the aggregated text of a request. *)
Definition file_block (lib : Libraries) (file : UploadedFile) : string :=
  start_of_file file ++ extracted_text lib file ++ end_of_file file.

Definition aggregated (lib : Libraries) (uploaded_files : list UploadedFile)
    (additional_context : string) : string :=
  concat_all (map (file_block lib) uploaded_files)
  ++ (if truthy additional_context then user_notes_block additional_context else "").

(** The warning shown for an artifact no format matches. *)
Definition unsupported_warning (file : UploadedFile) : event :=
  st_warning ("Unsupported file type: " ++ name file ++ ". Skipping.").

(** The calls each extractor's [except] clause makes for an exception. *)
Definition pdf_diagnostic (file : UploadedFile) (e : exn) : list event :=
  [st_error ("Error reading PDF file " ++ name file ++ ": " ++ exn_msg e)].
Definition docx_diagnostic (file : UploadedFile) (e : exn) : list event :=
  [st_error ("Error reading DOCX file " ++ name file ++ ": " ++ exn_msg e)].
Definition csv_diagnostic (file : UploadedFile) (e : exn) : list event :=
  [st_error ("Error reading CSV file " ++ name file ++ ": " ++ exn_msg e)].
Definition excel_diagnostic (file : UploadedFile) (e : exn) : list event :=
  match e with
  | ImportError _ => [st_error excel_import_message; st_exception e]
  | Exception _ =>
      [st_error ("Error reading Excel file " ++ name file ++ ": " ++ exn_msg e)]
  end.
Definition pptx_diagnostic (file : UploadedFile) (e : exn) : list event :=
  [st_error ("Error reading PPTX file " ++ name file ++ ": " ++ exn_msg e)].

(** [follows_rule rule lib file full_text]: the loop body treats [file] as
    the dispatch rule [rule] says: the block holds the text the extractor of
    the chosen format returns and the calls are that extractor's, or, when
    no format is chosen, the block is empty and the only call is the
    warning; either way the body returns. *)
Definition follows_rule (rule : UploadedFile -> option format) (lib : Libraries)
    (file : UploadedFile) (full_text : string) : Prop :=
  match rule file with
  | Some k =>
      exists t evs,
        yields (extractor lib k file) (Return t) evs /\
        yields (get_all_input_text_file lib file full_text)
               (Return (full_text ++ start_of_file file ++ t ++ end_of_file file)) evs
  | None =>
      yields (get_all_input_text_file lib file full_text)
             (Return (full_text ++ start_of_file file ++ end_of_file file))
             [unsupported_warning file]
  end.

(** ** Further notions *)


(** The frame sizes as naturals. *)
Definition n_rows (d : DataFrame) : nat := List.length (rows d).
Definition n_cols (d : DataFrame) : nat := List.length (columns d).

(** The page texts that count: neither [None] nor empty. *)
Definition nonempty_texts (texts : list (option string)) : list string :=
  flat_map (fun t => if opt_truthy t then [or_empty t] else []) texts.

(** The [try] block of the extractor of each format and the calls its
    [except] clause makes. *)
Definition try_block (lib : Libraries) (k : format) : UploadedFile -> M string :=
  match k with
  | PDF => pdf_try lib
  | DOCX => docx_try lib
  | XLSX => excel_try lib
  | XLS => excel_try lib
  | CSV => csv_try lib
  | PPTX => pptx_try lib
  end.

Definition diagnostic_of (k : format) : UploadedFile -> exn -> list event :=
  match k with
  | PDF => pdf_diagnostic
  | DOCX => docx_diagnostic
  | XLSX => excel_diagnostic
  | XLS => excel_diagnostic
  | CSV => csv_diagnostic
  | PPTX => pptx_diagnostic
  end.

(** [quiet m]: [m] ends, the same way from every state, without any call
    of the generation client. *)
Definition quiet {A} (m : M A) : Prop :=
  exists o evs, yields m o evs /\ generation_calls evs = [].

(** What [generate_sar_section] returns for a key and a prompt, as a
    function of what the service does. *)
Definition generated (lib : Libraries) (api_key prompt : string) : option string :=
  match genai_Client lib api_key with
  | Raise _ => None
  | Return _ =>
      match models_generate_content lib api_key "gemini-2.5-flash" prompt with
      | Raise _ => None
      | Return resp => py_or (resp_text resp) (resp_output_text resp)
      end
  end.

(** The [type=] argument of [st.file_uploader]: the extensions the
    uploader accepts. *)
Definition uploader_types : list string :=
  ["pdf"; "docx"; "xlsx"; "xlsm"; "xls"; "csv"; "pptx"].

(** ** Sample inputs *)

(** Libraries that parse every input into one small document. *)
Definition sample_frame : DataFrame :=
  mkDataFrame ["id"; "value"] [[Some "1"; Some "x"]; [Some "2"; None]].

Definition sample_to_csv (d : DataFrame) : string :=
  join nl (join "," (columns d) :: map (fun r => join "," (map or_empty r)) (rows d))
  ++ nl.

Definition sample_deck : list Slide :=
  [mkSlide [mkShape None (Some (mkTable [["a"; "b"]; ["c"; "d"]])) None] None].

Definition sample_lib : Libraries :=
  mkLibraries
    (fun _ => Return [Return (Some "page one"); Return None])
    (fun _ => Return ["first paragraph"; "second paragraph"])
    (fun _ => Return sample_frame)
    (fun _ _ => Return [("Sheet1", Return sample_frame)])
    sample_to_csv
    (fun _ => Return sample_deck)
    (fun s => s)
    (fun _ => Return tt)
    (fun _ _ _ => Return (mkResponse (Some "report") None)).

(** Libraries every parser of which raises. *)
Definition failing_lib : Libraries :=
  mkLibraries
    (fun _ => Raise (Exception "not a PDF"))
    (fun _ => Raise (Exception "not a DOCX"))
    (fun _ => Raise (Exception "not a CSV"))
    (fun _ _ => Raise (ImportError "No module named 'openpyxl'"))
    sample_to_csv
    (fun _ => Raise (Exception "not a PPTX"))
    (fun s => s)
    (fun _ => Raise (Exception "no credentials"))
    (fun _ _ _ => Raise (Exception "unreachable")).

Definition sample_pdf : UploadedFile :=
  mkUploadedFile "report.pdf" "application/pdf" "%PDF-1.7".

Definition sample_csv : UploadedFile :=
  mkUploadedFile "table.csv" "text/csv" "id,value".

Definition sample_xlsx : UploadedFile :=
  mkUploadedFile "book.xlsx"
    "application/vnd.openxmlformats-officedocument.spreadsheetml.sheet" "PK".

Definition sample_pptx : UploadedFile :=
  mkUploadedFile "deck.pptx"
    "application/vnd.openxmlformats-officedocument.presentationml.presentation" "PK".

(** A binary workbook: its name has none of the known suffixes and its
    media type extends the legacy spreadsheet type. *)
Definition sample_xlsb : UploadedFile :=
  mkUploadedFile "ledger.xlsb"
    "application/vnd.ms-excel.sheet.binary.macroEnabled.12" "PK".

(** A word-processing document declared with a PDF media type. *)
Definition sample_mislabelled : UploadedFile :=
  mkUploadedFile "minutes.docx" "application/pdf" "PK".

(** A frame of 400 rows and 60 columns, and libraries that read it from
    every CSV file and workbook. *)
Definition wide_frame : DataFrame :=
  mkDataFrame (repeat "c" 60) (repeat (repeat (Some "v") 60) 400).

Definition wide_lib : Libraries :=
  mkLibraries (PdfReader sample_lib) (Document sample_lib)
    (fun _ => Return wide_frame)
    (fun _ _ => Return [("Sheet1", Return wide_frame)])
    sample_to_csv (Presentation sample_lib) (Path_suffix sample_lib)
    (genai_Client sample_lib) (models_generate_content sample_lib).

(** Libraries that parse every input into an empty document. *)
Definition empty_lib : Libraries :=
  mkLibraries
    (fun _ => Return [])
    (fun _ => Return [])
    (fun _ => Return (mkDataFrame [] []))
    (fun _ _ => Return [])
    sample_to_csv
    (fun _ => Return [])
    (fun s => s)
    (fun _ => Return tt)
    (fun _ _ _ => Return (mkResponse None None)).

(** Libraries whose PDF has a page that cannot be read after a good one,
    and whose workbook has a sheet that cannot be parsed after a good one. *)
Definition broken_lib : Libraries :=
  mkLibraries
    (fun _ => Return [Return (Some "page one"); Raise (Exception "bad page");
                      Return (Some "page three")])
    (Document sample_lib)
    (read_csv sample_lib)
    (fun _ _ => Return [("Good", Return sample_frame);
                        ("Bad", Raise (Exception "bad sheet"))])
    sample_to_csv
    (Presentation sample_lib)
    (Path_suffix sample_lib)
    (genai_Client sample_lib)
    (models_generate_content sample_lib).

(** * Properties *)

Local Open Scope list_scope.

(** ** The monad *)

Lemma yields_ret {A} (a : A) : yields (ret a) (Return a) [].
Proof.
  intros w. exists []. unfold ret. rewrite !app_nil_r. now destruct w.
Qed.

Lemma yields_call {A} (o : outcome A) : yields (call o) o [].
Proof.
  intros w. exists []. unfold call. rewrite !app_nil_r. now destruct w.
Qed.

Lemma yields_emit (e : event) : yields (emit e) (Return tt) [e].
Proof.
  intros w. exists []. unfold emit. now rewrite app_nil_r.
Qed.

Lemma yields_bind {A B} (m : M A) (k : A -> M B) a o e1 e2 :
  yields m (Return a) e1 -> yields (k a) o e2 -> yields (bind m k) o (e1 ++ e2).
Proof.
  intros Hm Hk w. destruct (Hm w) as [fr1 E1].
  destruct (Hk (mkWorld (frames w ++ fr1) (events w ++ e1) (report_output w)))
    as [fr2 E2].
  exists (fr1 ++ fr2). unfold bind. rewrite E1. cbv iota beta. rewrite E2. simpl.
  now rewrite <- !app_assoc.
Qed.

Lemma yields_bind_raise {A B} (m : M A) (k : A -> M B) e evs :
  yields m (Raise e) evs -> yields (bind m k) (Raise e) evs.
Proof.
  intros Hm w. destruct (Hm w) as [fr E]. exists fr. unfold bind. now rewrite E.
Qed.

Lemma yields_try_return {A} (body : M A) (handler : exn -> M A) a evs :
  yields body (Return a) evs -> yields (try_except body handler) (Return a) evs.
Proof.
  intros Hb w. destruct (Hb w) as [fr E]. exists fr. unfold try_except.
  now rewrite E.
Qed.

Lemma yields_try_caught {A} (body : M A) (handler : exn -> M A) e o e1 e2 :
  yields body (Raise e) e1 -> yields (handler e) o e2 ->
  yields (try_except body handler) o (e1 ++ e2).
Proof.
  intros Hb Hh w. destruct (Hb w) as [fr1 E1].
  destruct (Hh (mkWorld (frames w ++ fr1) (events w ++ e1) (report_output w)))
    as [fr2 E2].
  exists (fr1 ++ fr2). unfold try_except. rewrite E1. cbv iota beta. rewrite E2.
  simpl. now rewrite <- !app_assoc.
Qed.

(** An outcome and its calls are determined by the computation. *)
Lemma yields_unique {A} (m : M A) o1 o2 e1 e2 :
  yields m o1 e1 -> yields m o2 e2 -> o1 = o2 /\ e1 = e2.
Proof.
  intros H1 H2. destruct (H1 empty_world) as [f1 E1].
  destruct (H2 empty_world) as [f2 E2]. rewrite E1 in E2. simpl in E2.
  inversion E2. split; reflexivity.
Qed.

Lemma yields_fst {A} (m : M A) o evs w : yields m o evs -> fst (m w) = o.
Proof. intros H. destruct (H w) as [fr E]. now rewrite E. Qed.

(** ** The pandas store *)

Lemma nth_error_snoc {A} (l : list A) (x : A) :
  nth_error (l ++ [x]) (length l) = Some x.
Proof. rewrite nth_error_app2, Nat.sub_diag by lia. reflexivity. Qed.

Lemma bind_run {A B} (m : M A) (k : A -> M B) w a w' :
  m w = (Return a, w') -> bind m k w = k a w'.
Proof. intros E. unfold bind. now rewrite E. Qed.

Lemma ret_run {A} (a : A) w : ret a w = (Return a, w).
Proof. reflexivity. Qed.

Lemma deref_run w r d :
  nth_error (frames w) r = Some d -> deref r w = (Return d, w).
Proof. intros E. unfold deref. now rewrite E. Qed.

Lemma grown_grown w fr1 fr2 : grown (grown w fr1) fr2 = grown w (fr1 ++ fr2).
Proof. unfold grown. simpl. now rewrite <- app_assoc. Qed.

Lemma grown_nil w : grown w [] = w.
Proof. unfold grown. rewrite app_nil_r. now destruct w. Qed.

Lemma grown_keeps w fr r d :
  nth_error (frames w) r = Some d -> nth_error (frames (grown w fr)) r = Some d.
Proof.
  intros E. simpl. rewrite nth_error_app1; [assumption|].
  apply nth_error_Some. congruence.
Qed.

Lemma grown_last w d :
  nth_error (frames (grown w [d])) (length (frames w)) = Some d.
Proof. simpl. apply nth_error_snoc. Qed.

Lemma df_copy_run w r d :
  nth_error (frames w) r = Some d ->
  df_copy r w = (Return (length (frames w)), grown w [d]).
Proof. intros E. unfold df_copy. now rewrite (bind_run _ _ _ _ _ (deref_run _ _ _ E)). Qed.

Lemma df_shape_run w r d :
  nth_error (frames w) r = Some d -> df_shape r w = (Return (shape d), w).
Proof. intros E. unfold df_shape. now rewrite (bind_run _ _ _ _ _ (deref_run _ _ _ E)). Qed.

Lemma df_head_run w r d n :
  nth_error (frames w) r = Some d ->
  df_head r n w = (Return (length (frames w)), grown w [head_frame n d]).
Proof. intros E. unfold df_head. now rewrite (bind_run _ _ _ _ _ (deref_run _ _ _ E)). Qed.

Lemma df_iloc_cols_run w r d n :
  nth_error (frames w) r = Some d ->
  df_iloc_cols r n w = (Return (length (frames w)), grown w [iloc_cols_frame n d]).
Proof.
  intros E. unfold df_iloc_cols. now rewrite (bind_run _ _ _ _ _ (deref_run _ _ _ E)).
Qed.

Ltac run_bind H := rewrite (bind_run _ _ _ _ _ H); cbv beta.

Ltac finish_run :=
  unfold bind, ret; rewrite ?grown_grown; simpl; rewrite ?length_app; simpl;
  f_equal; f_equal; lia.


(** [_limit_df] on a valid reference allocates the copy and the truncated
    frames, and returns the reference of the last one. *)
Lemma _limit_df_run (max_rows max_cols : Z) (w : World) (df : ref) (d : DataFrame) :
  nth_error (frames w) df = Some d ->
  _limit_df df max_rows max_cols w
  = (Return (length (frames w) + length (limit_allocs max_rows max_cols d) - 1),
     grown w (limit_allocs max_rows max_cols d)).
Proof.
  intros E. unfold _limit_df, limit_allocs.
  run_bind (df_copy_run _ _ _ E).
  pose proof (grown_last w d) as E1.
  run_bind (df_shape_run _ _ _ E1).
  destruct (fst (shape d) >? max_rows)%Z.
  - run_bind (df_head_run _ _ _ max_rows E1).
    pose proof (grown_last (grown w [d]) (head_frame max_rows d)) as E2.
    run_bind (df_shape_run _ _ _ E2).
    destruct (snd (shape (head_frame max_rows d)) >? max_cols)%Z.
    + run_bind (df_iloc_cols_run _ _ _ max_cols E2). finish_run.
    + finish_run.
  - run_bind (ret_run (length (frames w)) (grown w [d])).
    run_bind (df_shape_run _ _ _ E1).
    destruct (snd (shape d) >? max_cols)%Z.
    + run_bind (df_iloc_cols_run _ _ _ max_cols E1). finish_run.
    + finish_run.
Qed.

Lemma limit_allocs_last (max_rows max_cols : Z) (d : DataFrame) (l : list DataFrame) :
  nth_error (l ++ limit_allocs max_rows max_cols d)
            (length l + length (limit_allocs max_rows max_cols d) - 1)
  = Some (limited max_rows max_cols d).
Proof.
  unfold limit_allocs, limited.
  destruct (fst (shape d) >? max_rows)%Z;
    [destruct (snd (shape (head_frame max_rows d)) >? max_cols)%Z
    |destruct (snd (shape d) >? max_cols)%Z]; simpl;
  (rewrite nth_error_app2 by lia);
  match goal with
  | |- nth_error ?fr ?n = _ =>
      replace n with (length fr - 1) by (simpl; lia); reflexivity
  end.
Qed.

(** ** Truncation *)

Lemma slice_to_nat {A} (n : nat) (l : list A) : slice_to (Z.of_nat n) l = firstn n l.
Proof.
  unfold slice_to. destruct (Z.leb_spec 0 (Z.of_nat n)); [|lia].
  now rewrite Nat2Z.id.
Qed.

Lemma Forall_firstn_keep {A} (P : A -> Prop) (n : nat) (l : list A) :
  Forall P l -> Forall P (firstn n l).
Proof.
  intros H. revert n. induction H; intros [|n]; simpl; constructor; auto.
Qed.

Lemma map_firstn_short {A} (k : nat) (l : list (list A)) :
  Forall (fun r => length r <= k) l -> map (firstn k) l = l.
Proof.
  induction 1; simpl; [reflexivity|]. rewrite firstn_all2 by assumption. congruence.
Qed.

(** On a rectangular frame [_limit_df] keeps exactly the leading rows and
    the leading columns. *)
Lemma limited_leading (max_rows max_cols : nat) (d : DataFrame) :
  rectangular d ->
  limited (Z.of_nat max_rows) (Z.of_nat max_cols) d = leading max_rows max_cols d.
Proof.
  intros R. unfold limited, leading.
  assert (E1 : (if (fst (shape d) >? Z.of_nat max_rows)%Z
                then head_frame (Z.of_nat max_rows) d else d)
               = mkDataFrame (columns d) (firstn max_rows (rows d))).
  { unfold shape, head_frame. simpl. rewrite slice_to_nat.
    destruct (Z.gtb_spec (Z.of_nat (length (rows d))) (Z.of_nat max_rows)).
    - reflexivity.
    - rewrite firstn_all2 by lia. now destruct d. }
  rewrite E1. unfold shape, iloc_cols_frame. simpl. rewrite slice_to_nat.
  destruct (Z.gtb_spec (Z.of_nat (length (columns d))) (Z.of_nat max_cols)).
  - rewrite firstn_length_le by lia. reflexivity.
  - rewrite (firstn_all2 (columns d)) by lia. f_equal.
    symmetry. apply map_firstn_short. apply Forall_firstn_keep.
    unfold rectangular in R. eapply Forall_impl; [|exact R].
    simpl. intros r Hr. lia.
Qed.

Lemma leading_caps (max_rows max_cols : nat) (d : DataFrame) :
  length (rows (leading max_rows max_cols d)) <= max_rows
  /\ length (columns (leading max_rows max_cols d)) <= max_cols
  /\ Forall (fun r => length r <= max_cols) (rows (leading max_rows max_cols d)).
Proof.
  unfold leading. simpl. rewrite length_map. repeat split.
  - apply firstn_le_length.
  - apply firstn_le_length.
  - apply Forall_map. apply Forall_forall. intros r _. apply firstn_le_length.
Qed.

(** ** Reasoning rules for the module's loops and for [_limit_df] *)

(** Reading a frame, limiting it and using the result: the continuation
    receives the limited frame. *)
Lemma yields_limited {A} (d : DataFrame) (max_rows max_cols : Z)
    (k : DataFrame -> M A) o evs :
  yields (k (limited max_rows max_cols d)) o evs ->
  yields (df <- alloc d ;; df <- _limit_df df max_rows max_cols ;;
          d' <- deref df ;; k d') o evs.
Proof.
  intros Hk w.
  assert (Ea : alloc d w = (Return (length (frames w)), grown w [d])) by reflexivity.
  run_bind Ea.
  run_bind (_limit_df_run max_rows max_cols _ _ _ (grown_last w d)).
  rewrite grown_grown.
  set (fr := [d] ++ limit_allocs max_rows max_cols d).
  assert (Ed : nth_error (frames (grown w fr))
                 (length (frames (grown w [d]))
                  + length (limit_allocs max_rows max_cols d) - 1)
               = Some (limited max_rows max_cols d)).
  { pose proof (limit_allocs_last max_rows max_cols d (frames w ++ [d])) as L.
    rewrite <- app_assoc in L. exact L. }
  run_bind (deref_run _ _ _ Ed).
  destruct (Hk (grown w fr)) as [fr2 E]. exists (fr ++ fr2). rewrite E.
  simpl. now rewrite <- app_assoc.
Qed.

(** A loop whose body always returns: the result is the fold of the
    body's results. *)
Lemma yields_for_each {A S} (xs : list A) (body : A -> S -> M S) (f : A -> S -> S) :
  (forall x acc, In x xs -> exists evs, yields (body x acc) (Return (f x acc)) evs) ->
  forall acc, exists evs,
    yields (for_each xs body acc) (Return (fold_left (fun a x => f x a) xs acc)) evs.
Proof.
  induction xs as [|x xs IH]; intros H acc; simpl.
  - exists []. apply yields_ret.
  - destruct (H x acc (or_introl eq_refl)) as [e1 H1].
    destruct (IH (fun y a Hy => H y a (or_intror Hy)) (f x acc)) as [e2 H2].
    exists (e1 ++ e2). eapply yields_bind; eassumption.
Qed.


Lemma total_ret {A} (a : A) : total (ret a).
Proof. exists (Return a), []. apply yields_ret. Qed.

Lemma total_call {A} (o : outcome A) : total (call o).
Proof. exists o, []. apply yields_call. Qed.

Lemma total_emit (e : event) : total (emit e).
Proof. exists (Return tt), [e]. apply yields_emit. Qed.

Lemma total_bind {A B} (m : M A) (k : A -> M B) :
  total m -> (forall a, total (k a)) -> total (bind m k).
Proof.
  intros (o & e1 & Hm) Hk. destruct o as [a|e].
  - destruct (Hk a) as (o2 & e2 & H2). exists o2, (e1 ++ e2).
    eapply yields_bind; eassumption.
  - exists (Raise e), e1. now apply yields_bind_raise.
Qed.

Lemma total_for_each {A S} (xs : list A) (body : A -> S -> M S) :
  (forall x acc, total (body x acc)) -> forall acc, total (for_each xs body acc).
Proof.
  intros H. induction xs as [|x xs IH]; intros acc; simpl.
  - apply total_ret.
  - apply total_bind; [apply H | exact IH].
Qed.

Lemma total_limited {A} (d : DataFrame) (max_rows max_cols : Z) (k : DataFrame -> M A) :
  (forall d', total (k d')) ->
  total (df <- alloc d ;; df <- _limit_df df max_rows max_cols ;;
         d' <- deref df ;; k d').
Proof.
  intros H. destruct (H (limited max_rows max_cols d)) as (o & evs & Hk).
  exists o, evs. now apply yields_limited.
Qed.

Lemma yields_never_raises {A} (m : M A) a evs :
  yields m (Return a) evs -> never_raises m.
Proof. intros H w. destruct (H w) as [fr E]. eauto. Qed.

Lemma caught_by_try (body : M string) (handler : exn -> M string) diagnostic :
  total body ->
  (forall e, yields (handler e) (Return ""%string) (diagnostic e)) ->
  caught_by body (try_except body handler) diagnostic.
Proof.
  intros (o & evs & Hb) Hh. exists o, evs. split; [assumption|].
  destruct o as [t|e].
  - now apply yields_try_return.
  - eapply yields_try_caught; [eassumption | apply Hh].
Qed.

Lemma caught_by_returns (body extractor : M string) diagnostic :
  caught_by body extractor diagnostic ->
  exists t evs, yields extractor (Return t) evs.
Proof. intros (o & evs & _ & H). destruct o; eauto. Qed.

(** A handler that reports one error and returns the empty string. *)
Lemma yields_report (msg : string) :
  yields (emit (st_error msg) ;;; ret ""%string) (Return ""%string) [st_error msg].
Proof.
  change [st_error msg] with ([st_error msg] ++ []).
  eapply yields_bind; [apply yields_emit | apply yields_ret].
Qed.

(** ** The extractors *)

Section Extractors.

Variable lib : Libraries.
Variable file : UploadedFile.

Lemma pdf_try_total : total (pdf_try lib file).
Proof.
  unfold pdf_try. apply total_bind; [apply total_call|]. intros reader.
  apply total_for_each. intros page text.
  apply total_bind; [apply total_call | intros; apply total_ret].
Qed.

Lemma docx_try_total : total (docx_try lib file).
Proof.
  unfold docx_try. apply total_bind; [apply total_call | intros; apply total_ret].
Qed.

Lemma csv_try_total : total (csv_try lib file).
Proof.
  unfold csv_try. apply total_bind; [apply total_call|]. intros d.
  apply total_limited. intros; apply total_ret.
Qed.

Lemma excel_try_total : total (excel_try lib file).
Proof.
  unfold excel_try. apply total_bind; [apply total_call|]. intros xls.
  apply total_bind; [|intros; apply total_ret].
  apply total_for_each. intros sheet_name parts.
  apply total_bind; [apply total_call|]. intros d.
  apply total_limited. intros; apply total_ret.
Qed.

Lemma pptx_try_total : total (pptx_try lib file).
Proof.
  unfold pptx_try. apply total_bind; [apply total_call | intros; apply total_ret].
Qed.

Lemma pdf_caught :
  caught_by (pdf_try lib file) (extract_text_from_pdf lib file) (pdf_diagnostic file).
Proof. apply caught_by_try; [apply pdf_try_total | intros e; apply yields_report]. Qed.

Lemma docx_caught :
  caught_by (docx_try lib file) (extract_text_from_docx lib file) (docx_diagnostic file).
Proof. apply caught_by_try; [apply docx_try_total | intros e; apply yields_report]. Qed.

Lemma csv_caught :
  caught_by (csv_try lib file) (extract_text_from_csv lib file) (csv_diagnostic file).
Proof. apply caught_by_try; [apply csv_try_total | intros e; apply yields_report]. Qed.

Lemma excel_caught :
  caught_by (excel_try lib file) (extract_text_from_excel lib file) (excel_diagnostic file).
Proof.
  apply caught_by_try; [apply excel_try_total|]. intros [m|m]; simpl.
  - change [st_error excel_import_message; st_exception (ImportError m)]
      with ([st_error excel_import_message] ++ [st_exception (ImportError m)] ++ []).
    eapply yields_bind; [apply yields_emit|].
    eapply yields_bind; [apply yields_emit | apply yields_ret].
  - apply yields_report.
Qed.

Lemma pptx_caught :
  caught_by (pptx_try lib file) (extract_text_from_pptx lib file) (pptx_diagnostic file).
Proof. apply caught_by_try; [apply pptx_try_total | intros e; apply yields_report]. Qed.

(** Whatever format is chosen, its extractor returns a text. *)
Lemma extractor_returns (k : format) :
  exists t evs, yields (extractor lib k file) (Return t) evs.
Proof.
  destruct k; simpl; eapply caught_by_returns;
    first [apply pdf_caught | apply docx_caught | apply excel_caught
          | apply csv_caught | apply pptx_caught].
Qed.

End Extractors.

(** ** The aggregator *)

Lemma append_assoc (a b c : string) : ((a ++ b) ++ c = a ++ b ++ c)%string.
Proof. induction a; simpl; congruence. Qed.

Lemma append_nil_r (a : string) : (a ++ "" = a)%string.
Proof. induction a; simpl; congruence. Qed.

Lemma fold_left_append {A} (g : A -> string) (xs : list A) (acc : string) :
  fold_left (fun a x => (a ++ g x)%string) xs acc
  = (acc ++ concat_all (map g xs))%string.
Proof.
  revert acc. induction xs as [|x xs IH]; intros acc; simpl.
  - now rewrite append_nil_r.
  - rewrite IH. apply append_assoc.
Qed.

(** The chain of tests in the loop body picks the format [dispatch] picks. *)
Lemma get_all_input_text_file_dispatch (lib : Libraries) (file : UploadedFile)
    (full_text : string) :
  get_all_input_text_file lib file full_text
  = (let full_text := (full_text ++ start_of_file file)%string in
     full_text' <-
       try_except
         (match dispatch file with
          | Some k => t <- extractor lib k file ;; ret (full_text ++ t)%string
          | None => emit (unsupported_warning file) ;;; ret full_text
          end)
         (fun e =>
            emit (st_error ("Error reading file " ++ name file ++ ": " ++ exn_msg e)%string) ;;;
            ret full_text) ;;
     ret (full_text' ++ end_of_file file)%string).
Proof.
  unfold get_all_input_text_file, dispatch, formats_in_order, unsupported_warning.
  cbv zeta. cbn [find suffix_matches media_type_matches].
  repeat match goal with
         | |- context [if ?c then _ else _] => destruct c
         end; reflexivity.
Qed.

Lemma get_all_input_text_file_yields (lib : Libraries) (file : UploadedFile)
    (full_text : string) :
  exists evs,
    yields (get_all_input_text_file lib file full_text)
           (Return (full_text ++ file_block lib file)%string) evs.
Proof.
  rewrite get_all_input_text_file_dispatch. cbv zeta.
  unfold file_block, extracted_text.
  rewrite <- !append_assoc.
  destruct (dispatch file) as [k|].
  - destruct (extractor_returns lib file k) as (t & evs & H).
    rewrite (yields_fst _ _ _ empty_world H).
    exists ((evs ++ []) ++ []).
    eapply yields_bind; [|apply yields_ret].
    apply yields_try_return. eapply yields_bind; [exact H | apply yields_ret].
  - rewrite append_nil_r.
    exists (([unsupported_warning file] ++ []) ++ []).
    eapply yields_bind; [|apply yields_ret].
    apply yields_try_return. eapply yields_bind; [apply yields_emit | apply yields_ret].
Qed.

Lemma get_all_input_text_yields (lib : Libraries) (uploaded_files : list UploadedFile)
    (additional_context : string) :
  list_truthy uploaded_files || truthy additional_context = true ->
  exists evs,
    yields (get_all_input_text lib uploaded_files additional_context)
           (Return (aggregated lib uploaded_files additional_context, true)) evs.
Proof.
  intros H. unfold get_all_input_text, aggregated. cbv zeta.
  rewrite <- negb_orb, H. cbn [negb].
  destruct (yields_for_each uploaded_files (get_all_input_text_file lib)
              (fun file acc => (acc ++ file_block lib file)%string)
              (fun file acc _ => get_all_input_text_file_yields lib file acc)
              ""%string) as [evs Hloop].
  rewrite fold_left_append in Hloop. cbn [append] in Hloop.
  destruct uploaded_files as [|file rest].
  - cbn [list_truthy map concat_all fold_right].
    exists ([] ++ []). eapply yields_bind; [apply yields_ret|].
    destruct (truthy additional_context); [|rewrite append_nil_r]; apply yields_ret.
  - cbn [list_truthy]. exists (evs ++ []).
    eapply yields_bind; [exact Hloop|].
    destruct (truthy additional_context); [|rewrite append_nil_r]; apply yields_ret.
Qed.

(** ** Validation gate of the aggregator *)

Lemma list_truthy_false {A} (xs : list A) : list_truthy xs = false <-> xs = [].
Proof. destruct xs; simpl; split; congruence. Qed.

Lemma truthy_false (s : string) : truthy s = false <-> s = ""%string.
Proof. destruct s; simpl; split; congruence. Qed.

(** C1. [get_all_input_text] always returns a pair [(text, ok)]; [ok] is
    false exactly when there is no artifact and the notes are empty; with
    no artifact and non-empty notes, [ok] is true and the text is the
    user-notes block between its START/END markers and nothing else. *)
Theorem get_all_input_text_ok_gate (lib : Libraries)
    (uploaded_files : list UploadedFile) (additional_context : string) (w : World) :
  exists text ok w',
    get_all_input_text lib uploaded_files additional_context w = (Return (text, ok), w')
    /\ (ok = false <-> uploaded_files = [] /\ additional_context = ""%string)
    /\ (uploaded_files = [] -> additional_context <> ""%string ->
        ok = true
        /\ text = ("--- START OF ADDITIONAL USER NOTES ---" ++ nl ++ nl
                   ++ additional_context ++ nl ++ nl
                   ++ "--- END OF ADDITIONAL USER NOTES ---" ++ nl ++ nl)%string).
Proof.
  destruct (list_truthy uploaded_files || truthy additional_context) eqn:G.
  - destruct (get_all_input_text_yields lib uploaded_files additional_context G)
      as [evs H].
    destruct (H w) as [fr E].
    eexists _, true, _. split; [exact E|]. split.
    + split; [discriminate|]. intros [-> ->]. discriminate.
    + intros -> Hn. split; [reflexivity|].
      unfold aggregated. simpl.
      destruct additional_context; [congruence | reflexivity].
  - apply orb_false_iff in G. destruct G as [G1 G2].
    apply list_truthy_false in G1. apply truthy_false in G2. subst.
    eexists _, false, _. split; [reflexivity|]. split.
    + split; auto.
    + intros _ Hn. congruence.
Qed.

(** ** Extractors never raise *)

Lemma caught_never_raises (body extractor : M string) diagnostic :
  caught_by body extractor diagnostic -> never_raises extractor.
Proof.
  intros H. destruct (caught_by_returns _ _ _ H) as (t & evs & Ht).
  eapply yields_never_raises; exact Ht.
Qed.

(** With libraries whose parsers all raise, the diagnostic is reported and
    the empty string returned. *)
Example extract_text_from_pdf_failing :
  extract_text_from_pdf failing_lib sample_pdf empty_world
  = (Return ""%string,
     mkWorld [] [st_error "Error reading PDF file report.pdf: not a PDF"] "").
Proof. reflexivity. Qed.

Example extract_text_from_excel_failing :
  extract_text_from_excel failing_lib sample_xlsx empty_world
  = (Return ""%string,
     mkWorld [] [st_error excel_import_message;
                 st_exception (ImportError "No module named 'openpyxl'")] "").
Proof. reflexivity. Qed.

(** C3. Each of the five extractors catches every failure of its [try]
    block: when the block raises, the extractor reports a diagnostic and
    returns the empty string; it returns the block's text otherwise.  None
    of them ever raises to the aggregation loop. *)
Theorem extractors_never_raise (lib : Libraries) (file : UploadedFile) :
  (caught_by (pdf_try lib file) (extract_text_from_pdf lib file) (pdf_diagnostic file)
   /\ never_raises (extract_text_from_pdf lib file))
  /\ (caught_by (docx_try lib file) (extract_text_from_docx lib file)
        (docx_diagnostic file)
      /\ never_raises (extract_text_from_docx lib file))
  /\ (caught_by (excel_try lib file) (extract_text_from_excel lib file)
        (excel_diagnostic file)
      /\ never_raises (extract_text_from_excel lib file))
  /\ (caught_by (csv_try lib file) (extract_text_from_csv lib file)
        (csv_diagnostic file)
      /\ never_raises (extract_text_from_csv lib file))
  /\ (caught_by (pptx_try lib file) (extract_text_from_pptx lib file)
        (pptx_diagnostic file)
      /\ never_raises (extract_text_from_pptx lib file)).
Proof.
  repeat match goal with |- _ /\ _ => split end;
    first [apply pdf_caught | apply docx_caught | apply excel_caught
          | apply csv_caught | apply pptx_caught
          | eapply caught_never_raises;
            first [apply pdf_caught | apply docx_caught | apply excel_caught
                  | apply csv_caught | apply pptx_caught]].
Qed.

(** ** The request handler *)

Lemma generation_calls_app (l1 l2 : list event) :
  generation_calls (l1 ++ l2) = generation_calls l1 ++ generation_calls l2.
Proof. apply filter_app. Qed.

(** Every run of [generate_sar_section] starts by recording the
    construction of the client. *)
Lemma generate_sar_section_recorded (lib : Libraries)
    (api_key sar_item context_data : string) :
  exists o evs,
    yields (generate_sar_section lib api_key sar_item context_data) o
           (genai_Client_new api_key :: evs).
Proof.
  unfold generate_sar_section.
  set (rest := call (genai_Client lib api_key) ;;; _).
  assert (T : total rest).
  { subst rest. apply total_bind; [apply total_call|]. intros _. cbv zeta.
    apply total_bind; [apply total_emit|]. intros _.
    apply total_bind; [apply total_call|]. intros resp. apply total_ret. }
  destruct T as (o & evs & Hrest).
  assert (Hbody : yields (emit (genai_Client_new api_key) ;;; rest) o
                    ([genai_Client_new api_key] ++ evs)).
  { eapply yields_bind; [apply yields_emit | exact Hrest]. }
  destruct o as [r|e].
  - exists (Return r), evs. apply yields_try_return. exact Hbody.
  - match goal with
    | |- context [try_except _ ?h] =>
        assert (Hh : exists hevs, yields (h e) (Return None) hevs)
    end.
    { eexists. eapply yields_bind; [apply yields_emit|].
      eapply yields_bind; [apply yields_emit | apply yields_ret]. }
    destruct Hh as [hevs Hh]. exists (Return None), (evs ++ hevs).
    exact (yields_try_caught _ _ e _ _ _ Hbody Hh).
Qed.

(** C4. A request with a selected topic, no artifact and empty notes is
    rejected by the validation of the handler: the only call made is the
    validation message, the session state is untouched, and no call of the
    generation client is recorded, whereas any run of
    [generate_sar_section] records one. *)
Theorem empty_request_never_generates (lib : Libraries) (GEMINI_API_KEY : string)
    (c : ascii) (topic : string) (w : World) :
  generate_button_handler lib GEMINI_API_KEY true (Some (String c topic)) [] "" w
  = (Return tt,
     mkWorld (frames w)
             (events w ++
              [st_error "กรุณาอัปโหลดไฟล์อย่างน้อย 1 ไฟล์ หรือใส่ข้อมูลเพิ่มเติม"])
             (report_output w))
  /\ generation_calls
       (events (snd (generate_button_handler lib GEMINI_API_KEY true
                       (Some (String c topic)) [] "" w)))
     = generation_calls (events w)
  /\ (forall sar_item context_data w0,
        generation_calls
          (events (snd (generate_sar_section lib GEMINI_API_KEY sar_item
                          context_data w0)))
        <> generation_calls (events w0)).
Proof.
  split; [reflexivity|]. split.
  - simpl. rewrite generation_calls_app. simpl. apply app_nil_r.
  - intros sar_item context_data w0.
    destruct (generate_sar_section_recorded lib GEMINI_API_KEY sar_item context_data)
      as (o & evs & H).
    destruct (H w0) as [fr E]. rewrite E. simpl.
    rewrite generation_calls_app. simpl. intros Heq.
    apply (f_equal (@length event)) in Heq. rewrite length_app in Heq.
    simpl in Heq. lia.
Qed.

(** ** Shape of the aggregated text *)

Lemma extracted_text_run (lib : Libraries) (file : UploadedFile) (k : format)
    (w : World) :
  dispatch file = Some k ->
  fst (extractor lib k file w) = Return (extracted_text lib file).
Proof.
  intros D. unfold extracted_text. rewrite D.
  destruct (extractor_returns lib file k) as (t & evs & H).
  now rewrite !(yields_fst _ _ _ _ H).
Qed.

(** C5. For a non-empty list of artifacts the aggregated text is, in upload
    order, one block per artifact, [START OF FILE: name], the text its
    extractor returns, [END OF FILE: name], followed by one user-notes
    block when the notes are non-empty; the text is the same from every
    state, nothing being carried from one call to the next. *)
Theorem aggregated_text_shape (lib : Libraries) (uploaded_files : list UploadedFile)
    (additional_context : string) :
  uploaded_files <> [] ->
  let block file :=
    ("--- START OF FILE: " ++ name file ++ " ---" ++ nl ++ nl
     ++ extracted_text lib file
     ++ nl ++ nl ++ "--- END OF FILE: " ++ name file ++ " ---" ++ nl ++ nl)%string in
  let notes :=
    (if truthy additional_context
     then "--- START OF ADDITIONAL USER NOTES ---" ++ nl ++ nl ++ additional_context
          ++ nl ++ nl ++ "--- END OF ADDITIONAL USER NOTES ---" ++ nl ++ nl
     else "")%string in
  (forall w,
     fst (get_all_input_text lib uploaded_files additional_context w)
     = Return ((concat_all (map block uploaded_files) ++ notes)%string, true))
  /\ (forall w1 w2,
        fst (get_all_input_text lib uploaded_files additional_context w1)
        = fst (get_all_input_text lib uploaded_files additional_context w2))
  /\ (forall file k w,
        dispatch file = Some k ->
        fst (extractor lib k file w) = Return (extracted_text lib file))
  /\ (forall file, dispatch file = None -> extracted_text lib file = ""%string).
Proof.
  intros Hne block notes.
  assert (G : list_truthy uploaded_files || truthy additional_context = true).
  { destruct uploaded_files; [congruence | reflexivity]. }
  destruct (get_all_input_text_yields lib uploaded_files additional_context G)
    as [evs H].
  assert (Hall : forall w,
            fst (get_all_input_text lib uploaded_files additional_context w)
            = Return ((concat_all (map block uploaded_files) ++ notes)%string, true)).
  { intros w. rewrite (yields_fst _ _ _ w H). unfold aggregated.
    replace (map (file_block lib) uploaded_files) with (map block uploaded_files).
    - reflexivity.
    - apply map_ext. intros f. subst block. unfold file_block, start_of_file, end_of_file.
      cbv beta. now rewrite !append_assoc. }
  split; [exact Hall|]. split.
  - intros w1 w2. now rewrite !Hall.
  - split.
    + intros file k w D. now apply extracted_text_run.
    + intros file D. unfold extracted_text. now rewrite D.
Qed.

Lemma aggregated_text_shape_witness :
  fst (get_all_input_text sample_lib [sample_pdf; sample_xlsb] "note" empty_world)
  = Return (("--- START OF FILE: report.pdf ---" ++ nl ++ nl
             ++ "page one" ++ nl
             ++ nl ++ nl ++ "--- END OF FILE: report.pdf ---" ++ nl ++ nl
             ++ "--- START OF FILE: ledger.xlsb ---" ++ nl ++ nl
             ++ nl ++ nl ++ "--- END OF FILE: ledger.xlsb ---" ++ nl ++ nl
             ++ "--- START OF ADDITIONAL USER NOTES ---" ++ nl ++ nl ++ "note"
             ++ nl ++ nl ++ "--- END OF ADDITIONAL USER NOTES ---" ++ nl ++ nl)%string,
            true).
Proof.
  assert (Hne : [sample_pdf; sample_xlsb] <> []) by discriminate.
  rewrite (proj1 (aggregated_text_shape sample_lib [sample_pdf; sample_xlsb]
                    "note" Hne) empty_world).
  reflexivity.
Defined.

(** ** Dispatch *)

Lemma yields_calls {A} (m : M A) o evs evs' :
  yields m o evs -> evs = evs' -> yields m o evs'.
Proof. now intros H <-. Qed.

(** C6 (amended). For every artifact the loop body follows [dispatch]: the
    formats are tried in the order PDF, DOCX, XLSX/XLSM, XLS, CSV, PPTX,
    each by its name suffix and then by its media-type test (a substring
    test, the whole string for legacy XLS), and the first that succeeds
    chooses the extractor; an artifact that matches none gets an empty
    block and a warning, and the body returns so the batch goes on. *)
Theorem dispatch_rule (lib : Libraries) (file : UploadedFile) (full_text : string) :
  follows_rule dispatch lib file full_text.
Proof.
  unfold follows_rule.
  rewrite get_all_input_text_file_dispatch. cbv zeta.
  rewrite <- !append_assoc.
  destruct (dispatch file) as [k|].
  - destruct (extractor_returns lib file k) as (t & evs & H).
    exists t, evs. split; [exact H|]. rewrite <- !append_assoc.
    apply yields_calls with (evs := (evs ++ []) ++ []); [|now rewrite !app_nil_r].
    eapply yields_bind; [|apply yields_ret].
    apply yields_try_return. eapply yields_bind; [exact H | apply yields_ret].
  - change [unsupported_warning file] with (([unsupported_warning file] ++ []) ++ []).
    eapply yields_bind; [|apply yields_ret].
    apply yields_try_return. eapply yields_bind; [apply yields_emit | apply yields_ret].
Qed.

(** The rule as worded, suffix first and media-type substring otherwise, is
    not the one the loop body follows: it sends the binary workbook to the
    spreadsheet extractor, whereas the body skips it. *)
Lemma dispatch_suffix_then_media_type_refuted :
  ~ (forall lib file full_text,
       follows_rule dispatch_suffix_then_media_type lib file full_text).
Proof.
  intros H. specialize (H sample_lib sample_xlsb ""%string).
  unfold follows_rule in H.
  change (dispatch_suffix_then_media_type sample_xlsb) with (Some XLS) in H.
  destruct H as (t & evs & Hx & Hb).
  pose proof (yields_fst _ _ _ empty_world Hx) as E1.
  pose proof (yields_fst _ _ _ empty_world Hb) as E2.
  vm_compute in E1. vm_compute in E2.
  inversion E1 as [Ht]. rewrite <- Ht in E2. discriminate E2.
Qed.

(** The order of the formats decides before the suffix does: a name ending
    in [.docx] declared with a PDF media type goes to the PDF extractor. *)
Example dispatch_mislabelled :
  dispatch sample_mislabelled = Some PDF
  /\ dispatch_suffix_then_media_type sample_mislabelled = Some DOCX.
Proof. split; reflexivity. Qed.

Example dispatch_xlsb :
  dispatch sample_xlsb = None
  /\ dispatch_suffix_then_media_type sample_xlsb = Some XLS.
Proof. split; reflexivity. Qed.

(** ** The topic catalog *)

(** C7. The catalog in the source holds twelve entries, the keys 1 to 11
    and 82: the keys 12 to 81 announced by its comment and by the selector's
    label are absent, and the selector offers twelve options. *)
Theorem SAR_ITEMS_keys :
  dict_keys SAR_ITEMS = [1; 2; 3; 4; 5; 6; 7; 8; 9; 10; 11; 82]%Z
  /\ dict_get SAR_ITEMS 12 = None
  /\ (forall k, (12 <= k <= 81)%Z -> dict_get SAR_ITEMS k = None)
  /\ length sar_options = 12.
Proof.
  split; [reflexivity|]. split; [reflexivity|]. split; [|reflexivity].
  intros k Hk. unfold dict_get, SAR_ITEMS.
  cbn [find fst snd].
  repeat match goal with
         | |- context [(?n =? k)%Z] =>
             destruct (Z.eqb_spec n k); [lia|]
         end.
  reflexivity.
Qed.

(** ** Tabular caps *)

Lemma fold_left_snoc {A B} (g : A -> B) (xs : list A) (acc : list B) :
  fold_left (fun a x => a ++ [g x]) xs acc = acc ++ map g xs.
Proof.
  revert acc. induction xs as [|x xs IH]; intros acc; simpl.
  - now rewrite app_nil_r.
  - rewrite IH, <- app_assoc. reflexivity.
Qed.

Lemma extract_text_from_csv_limited (lib : Libraries) (file : UploadedFile)
    (d : DataFrame) :
  read_csv lib (data file) = Return d ->
  yields (extract_text_from_csv lib file)
         (Return (to_csv lib (limited MAX_ROWS MAX_COLS d))) [].
Proof.
  intros E. apply yields_try_return. unfold csv_try.
  change (@nil event) with (@nil event ++ []).
  eapply yields_bind; [rewrite E; apply yields_call|].
  apply yields_limited. apply yields_ret.
Qed.

Lemma extract_text_from_excel_limited (lib : Libraries) (file : UploadedFile)
    (xls : Workbook) (parsed : string -> DataFrame) :
  ExcelFile lib (data file) (excel_engine lib file) = Return xls ->
  (forall n, In n (sheet_names xls) -> xls_parse xls n = Return (parsed n)) ->
  yields (extract_text_from_excel lib file)
         (Return (join nl
            (map (fun n => ("[Sheet: " ++ n ++ "]" ++ nl
                            ++ to_csv lib (limited MAX_ROWS MAX_COLS (parsed n))
                            ++ nl)%string)
                 (sheet_names xls)))) [].
Proof.
  intros E P. apply yields_try_return. unfold excel_try. cbv zeta.
  change (@nil event) with (@nil event ++ []).
  eapply yields_bind; [rewrite E; apply yields_call|].
  set (block := fun n => ("[Sheet: " ++ n ++ "]" ++ nl
                          ++ to_csv lib (limited MAX_ROWS MAX_COLS (parsed n))
                          ++ nl)%string).
  assert (L : forall parts,
             yields (for_each (sheet_names xls)
                       (fun sheet_name (parts : list string) =>
                          d <- call (xls_parse xls sheet_name) ;;
                          df <- alloc d ;;
                          df <- _limit_df df MAX_ROWS MAX_COLS ;;
                          d <- deref df ;;
                          ret (parts ++ ["[Sheet: " ++ sheet_name ++ "]" ++ nl
                                         ++ to_csv lib d ++ nl]%string))
                       parts)
                    (Return (parts ++ map block (sheet_names xls))) []).
  { revert P. generalize (sheet_names xls) as names.
    induction names as [|n names IH]; intros P parts; simpl.
    - rewrite app_nil_r. apply yields_ret.
    - change (@nil event) with ((@nil event ++ []) ++ []).
      eapply yields_bind.
      + eapply yields_bind; [rewrite (P n (or_introl eq_refl)); apply yields_call|].
        apply yields_limited. apply yields_ret.
      + replace (parts ++ block n :: map block names)
          with ((parts ++ [block n]) ++ map block names)
          by (now rewrite <- app_assoc).
        apply IH. intros m Hm. apply P. now right. }
  change (@nil event) with (@nil event ++ []).
  eapply yields_bind; [apply (L [])|]. apply yields_ret.
Qed.

(** C2. The table an extractor serialises, for a CSV file and for every
    sheet of a workbook, is the frame read cut to its leading 300 rows and
    leading 50 columns: it has at most [MAX_ROWS] rows and [MAX_COLS]
    columns whatever the size of the source. *)
Theorem tabular_output_capped (lib : Libraries) (csv_file xls_file : UploadedFile)
    (d : DataFrame) (xls : Workbook) (parsed : string -> DataFrame) :
  read_csv lib (data csv_file) = Return d ->
  rectangular d ->
  ExcelFile lib (data xls_file) (excel_engine lib xls_file) = Return xls ->
  (forall n, In n (sheet_names xls) ->
             xls_parse xls n = Return (parsed n) /\ rectangular (parsed n)) ->
  let table := leading 300 50 in
  yields (extract_text_from_csv lib csv_file) (Return (to_csv lib (table d))) []
  /\ yields (extract_text_from_excel lib xls_file)
       (Return (join nl
          (map (fun n => ("[Sheet: " ++ n ++ "]" ++ nl
                          ++ to_csv lib (table (parsed n)) ++ nl)%string)
               (sheet_names xls)))) []
  /\ (forall d0,
        Z.of_nat (length (rows (table d0))) <= MAX_ROWS
        /\ Z.of_nat (length (columns (table d0))) <= MAX_COLS
        /\ Forall (fun r => Z.of_nat (length r) <= MAX_COLS) (rows (table d0))
        /\ columns (table d0) = firstn 50 (columns d0)
        /\ rows (table d0) = map (firstn 50) (firstn 300 (rows d0)))%Z.
Proof.
  intros Ecsv Rd Exls Hsheets table. split; [|split].
  - subst table. rewrite <- (limited_leading 300 50 d Rd).
    now apply extract_text_from_csv_limited.
  - subst table.
    replace (map _ (sheet_names xls))
      with (map (fun n => ("[Sheet: " ++ n ++ "]" ++ nl
                           ++ to_csv lib (limited MAX_ROWS MAX_COLS (parsed n))
                           ++ nl)%string) (sheet_names xls)).
    + apply extract_text_from_excel_limited; [assumption|].
      intros n Hn. apply (Hsheets n Hn).
    + apply map_ext_in. intros n Hn.
      now rewrite <- (limited_leading 300 50 (parsed n) (proj2 (Hsheets n Hn))).
  - intros d0. subst table.
    destruct (leading_caps 300 50 d0) as (H1 & H2 & H3).
    unfold MAX_ROWS, MAX_COLS. repeat split; try lia; try reflexivity.
    eapply Forall_impl; [|exact H3]. simpl. intros r Hr. lia.
Qed.

Lemma tabular_output_capped_witness :
  yields (extract_text_from_csv wide_lib sample_csv)
         (Return (to_csv wide_lib (leading 300 50 wide_frame))) []
  /\ length (rows (leading 300 50 wide_frame)) = 300
  /\ length (columns (leading 300 50 wide_frame)) = 50.
Proof.
  assert (R : rectangular wide_frame).
  { unfold rectangular, wide_frame. cbn [rows columns].
    apply Forall_forall. intros r Hr. apply repeat_spec in Hr. subst r.
    now rewrite !repeat_length. }
  destruct (tabular_output_capped wide_lib sample_csv sample_xlsx wide_frame
              [("Sheet1"%string, Return wide_frame)] (fun _ => wide_frame)
              eq_refl R eq_refl) as (Hcsv & _ & _).
  - intros n [<-|[]]. split; [reflexivity | exact R].
  - split; [exact Hcsv|]. split; reflexivity.
Defined.

(** ** Slide decks *)

(** C8. A deck of one slide that holds a single table with the rows
    [a, b] and [c, d] and has no speaker notes is extracted as the tag
    [[Slide 1]] followed by the lines [a,b] and [c,d]; the text has no
    [[Notes]] section. *)
Theorem pptx_single_table_slide (lib : Libraries) (file : UploadedFile)
    (ns : option NotesSlide) :
  Presentation lib (data file)
  = Return [mkSlide [mkShape None (Some (mkTable [["a"; "b"]; ["c"; "d"]]%string)) None]
                    ns] ->
  no_notes ns = true ->
  yields (extract_text_from_pptx lib file)
         (Return ("[Slide 1]" ++ nl ++ "a,b" ++ nl ++ "c,d")%string) []
  /\ contains "[Notes]" ("[Slide 1]" ++ nl ++ "a,b" ++ nl ++ "c,d")%string = false.
Proof.
  intros E N. split; [|reflexivity].
  apply yields_try_return. unfold pptx_try. rewrite E.
  change (@nil event) with (@nil event ++ []).
  eapply yields_bind; [apply yields_call|]. cbv zeta.
  assert (S : slides_text 1
                [mkSlide [mkShape None (Some (mkTable [["a"; "b"]; ["c"; "d"]]%string))
                                  None] ns] []
              = [("[Slide 1]" ++ nl ++ "a,b" ++ nl ++ "c,d")%string]).
  { unfold slides_text, slide_text. cbn [slide_shapes notes_slide app].
    destruct ns as [[[tf|]]|]; cbn [notes_text_frame]; cbn [no_notes notes_text_frame] in N.
    - apply negb_true_iff in N. rewrite N. reflexivity.
    - reflexivity.
    - reflexivity. }
  rewrite S. apply yields_ret.
Qed.

Lemma pptx_single_table_slide_witness :
  yields (extract_text_from_pptx sample_lib sample_pptx)
         (Return ("[Slide 1]" ++ nl ++ "a,b" ++ nl ++ "c,d")%string) [].
Proof.
  exact (proj1 (pptx_single_table_slide sample_lib sample_pptx None eq_refl eq_refl)).
Defined.

(** Cells are trimmed, blank text frames are skipped, groups are walked
    in place and non-blank notes are appended. *)
Example pptx_trim_group_notes :
  slide_text 2
    (mkSlide
       [mkShape (Some (mkTextFrame (Some "  Title "%string))) None None;
        mkShape (Some (mkTextFrame (Some "   "%string))) None None;
        mkShape None None
          (Some [mkShape None (Some (mkTable [[" a"; "b "]]%string)) None;
                 mkShape (Some (mkTextFrame (Some "inner"%string))) None None])]
       (Some (mkNotesSlide (Some (mkTextFrame (Some " say hello "%string))))))
  = ("[Slide 2]" ++ nl ++ "Title" ++ nl ++ "a,b" ++ nl ++ "inner" ++ nl
     ++ "[Notes]" ++ nl ++ "say hello")%string.
Proof. reflexivity. Qed.

(** ** [_limit_df] leaves its argument alone *)

(** C9. [_limit_df] works on a copy: after the call the caller's frame is
    what it was, as is every object that existed before; the frame
    returned is a new object, whether or not rows or columns were cut. *)
Theorem limit_df_preserves_argument (max_rows max_cols : Z) (w : World)
    (df : ref) (d : DataFrame) :
  nth_error (frames w) df = Some d ->
  exists df' w',
    _limit_df df max_rows max_cols w = (Return df', w')
    /\ nth_error (frames w') df = Some d
    /\ (forall r d0, nth_error (frames w) r = Some d0 ->
                     nth_error (frames w') r = Some d0)
    /\ df' <> df
    /\ nth_error (frames w') df' = Some (limited max_rows max_cols d)
    /\ events w' = events w
    /\ report_output w' = report_output w.
Proof.
  intros E. eexists _, _. split; [apply (_limit_df_run _ _ _ _ _ E)|].
  assert (L : 1 <= length (limit_allocs max_rows max_cols d)).
  { unfold limit_allocs. simpl. lia. }
  assert (Hdf : df < length (frames w)) by (apply nth_error_Some; congruence).
  repeat split.
  - now apply grown_keeps.
  - intros r d0 Hr. now apply grown_keeps.
  - lia.
  - apply limit_allocs_last.
Qed.

Lemma limit_df_preserves_argument_witness :
  exists df' w',
    _limit_df 0 1 1 (mkWorld [sample_frame] [] "") = (Return df', w')
    /\ nth_error (frames w') 0 = Some sample_frame
    /\ nth_error (frames w') df'
       = Some (mkDataFrame ["id"%string] [[Some "1"%string]]).
Proof.
  destruct (limit_df_preserves_argument 1 1 (mkWorld [sample_frame] [] "")
              0 sample_frame eq_refl)
    as (df' & w' & Hrun & Hkeep & _ & _ & Hnew & _).
  exists df', w'. split; [exact Hrun|]. split; [exact Hkeep | exact Hnew].
Defined.

(** ** The shape walk *)

Lemma _walk_shapes_nil (out_parts : list string) : _walk_shapes [] out_parts = out_parts.
Proof. reflexivity. Qed.

(** The loop of [_walk_shapes], one shape at a time: the shape's own parts,
    then the recursive call on its children when it is a group, then the
    rest of the list. *)
Lemma _walk_shapes_cons (sh : Shape) (rest : list Shape) (out_parts : list string) :
  _walk_shapes (sh :: rest) out_parts
  = _walk_shapes rest
      (match sh_shapes sh with
       | Some children => _walk_shapes children (own_parts sh out_parts)
       | None => own_parts sh out_parts
       end).
Proof.
  unfold _walk_shapes. simpl fold_left. f_equal.
  destruct sh as [tf tb [children|]]; reflexivity.
Qed.

Lemma shape_size_children (sh : Shape) (children : list Shape) :
  sh_shapes sh = Some children -> shape_size sh = S (shapes_size children).
Proof. destruct sh as [tf tb g]. simpl. now intros ->. Qed.

Lemma shape_size_in (sh : Shape) (shapes : list Shape) :
  In sh shapes -> shape_size sh <= shapes_size shapes.
Proof.
  induction shapes as [|s rest IH]; simpl; [tauto|].
  intros [->|H]; [lia | specialize (IH H); lia].
Qed.

Lemma walk_call_smaller (children shapes : list Shape) :
  walk_call children shapes -> shapes_size children < shapes_size shapes.
Proof.
  intros [shapes' sh children' Hin Hg].
  pose proof (shape_size_children _ _ Hg). pose proof (shape_size_in _ _ Hin). lia.
Qed.

Lemma _walk_shapes_extends (n : nat) :
  forall shapes out_parts, shapes_size shapes <= n ->
  exists added, _walk_shapes shapes out_parts = out_parts ++ added.
Proof.
  induction n as [|n IH]; intros shapes out_parts Hn.
  - destruct shapes as [|sh rest].
    + exists []. now rewrite app_nil_r.
    + destruct sh. simpl in Hn. lia.
  - destruct shapes as [|sh rest].
    + exists []. now rewrite app_nil_r.
    + rewrite _walk_shapes_cons.
      assert (Hown : exists own, own_parts sh out_parts = out_parts ++ own).
      { unfold own_parts.
        destruct (sh_text_frame sh) as [tf|];
          [destruct (truthy (strip (or_empty (tf_text tf))))|];
          destruct (sh_table sh) as [tbl|];
          rewrite <- ?app_assoc; eauto; exists []; now rewrite app_nil_r. }
      destruct Hown as [own ->].
      assert (Hsh : shape_size sh + shapes_size rest <= S n) by exact Hn.
      assert (Hpos : 1 <= shape_size sh) by (destruct sh; simpl; lia).
      destruct (sh_shapes sh) as [children|] eqn:G.
      * pose proof (shape_size_children _ _ G) as Hc.
        destruct (IH children (out_parts ++ own)) as [a1 ->]; [lia|].
        destruct (IH rest ((out_parts ++ own) ++ a1)) as [a2 ->]; [lia|].
        exists (own ++ a1 ++ a2). now rewrite <- !app_assoc.
      * destruct (IH rest (out_parts ++ own)) as [a2 ->]; [lia|].
        exists (own ++ a2). now rewrite <- !app_assoc.
Qed.

(** C10. [_walk_shapes] terminates on every forest of shapes: walking a
    list makes one recursive call per group, on that group's children,
    whose size is strictly smaller than the list's; the call relation is
    therefore well founded and the walk returns, extending [out_parts]. *)
Theorem walk_shapes_terminates :
  (forall out_parts, _walk_shapes [] out_parts = out_parts)
  /\ (forall sh rest out_parts,
        _walk_shapes (sh :: rest) out_parts
        = _walk_shapes rest
            (match sh_shapes sh with
             | Some children => _walk_shapes children (own_parts sh out_parts)
             | None => own_parts sh out_parts
             end))
  /\ (forall children shapes,
        walk_call children shapes -> shapes_size children < shapes_size shapes)
  /\ well_founded walk_call
  /\ (forall shapes out_parts,
        exists added, _walk_shapes shapes out_parts = out_parts ++ added).
Proof.
  split; [exact _walk_shapes_nil|]. split; [exact _walk_shapes_cons|].
  split; [exact walk_call_smaller|]. split.
  - apply (well_founded_lt_compat _ shapes_size). exact walk_call_smaller.
  - intros shapes out_parts.
    apply (_walk_shapes_extends (shapes_size shapes)). lia.
Qed.

(** * Further properties of the module *)

(** ** [_limit_df]: sizes, rectangular frames, repeated calls *)

Lemma slice_to_nonneg {A} (n : Z) (l : list A) :
  (0 <= n)%Z -> slice_to n l = firstn (Z.to_nat n) l.
Proof. intros H. unfold slice_to. now destruct (Z.leb_spec 0 n); [|lia]. Qed.

Lemma slice_to_length {A} (n : Z) (l : list A) : length (slice_to n l) <= length l.
Proof. unfold slice_to. destruct (0 <=? n)%Z; rewrite length_firstn; lia. Qed.

Lemma limited_within (max_rows max_cols : Z) (d : DataFrame) :
  (fst (shape d) <= max_rows)%Z -> (snd (shape d) <= max_cols)%Z ->
  limited max_rows max_cols d = d.
Proof.
  intros Hr Hc. unfold limited.
  destruct (Z.gtb_spec (fst (shape d)) max_rows); [lia|]. cbv zeta.
  destruct (Z.gtb_spec (snd (shape d)) max_cols); [lia|]. reflexivity.
Qed.

Lemma limited_sizes (max_rows max_cols : Z) (d : DataFrame) :
  (0 <= max_rows)%Z -> (0 <= max_cols)%Z ->
  n_rows (limited max_rows max_cols d) = Nat.min (n_rows d) (Z.to_nat max_rows)
  /\ n_cols (limited max_rows max_cols d) = Nat.min (n_cols d) (Z.to_nat max_cols).
Proof.
  intros Hr Hc.
  unfold limited, n_rows, n_cols, shape, head_frame, iloc_cols_frame. cbn [fst snd].
  destruct (Z.gtb_spec (Z.of_nat (length (rows d))) max_rows) as [Gr|Gr];
    cbv zeta; cbn [columns rows];
    destruct (Z.gtb_spec (Z.of_nat (length (columns d))) max_cols) as [Gc|Gc];
    cbn [columns rows];
    rewrite ?length_map, ?slice_to_nonneg, ?length_firstn by lia; lia.
Qed.

Lemma head_frame_rectangular (n : Z) (d : DataFrame) :
  rectangular d -> rectangular (head_frame n d).
Proof.
  unfold rectangular, head_frame, slice_to. cbn [rows columns]. intros R.
  destruct (0 <=? n)%Z; now apply Forall_firstn_keep.
Qed.

Lemma iloc_cols_frame_rectangular (n : Z) (d : DataFrame) :
  rectangular d -> rectangular (iloc_cols_frame n d).
Proof.
  unfold rectangular, iloc_cols_frame. cbn [rows columns]. intros R.
  pose proof (slice_to_length n (columns d)) as L.
  apply Forall_map. eapply Forall_impl; [|exact R]. cbv beta. intros r Hr.
  rewrite !length_firstn. lia.
Qed.

Lemma limited_rectangular (max_rows max_cols : Z) (d : DataFrame) :
  rectangular d -> rectangular (limited max_rows max_cols d).
Proof.
  intros R. unfold limited. cbv zeta.
  destruct (fst (shape d) >? max_rows)%Z;
    match goal with
    | |- context [if ?c then _ else _] => destruct c
    end;
    auto using head_frame_rectangular, iloc_cols_frame_rectangular.
Qed.

(** What a call of [_limit_df] on a valid reference comes to: a new
    reference to the limited frame, in a store that has only grown. *)
Lemma _limit_df_result (max_rows max_cols : Z) (w : World) (df : ref) (d : DataFrame) :
  nth_error (frames w) df = Some d ->
  exists df' fr,
    _limit_df df max_rows max_cols w = (Return df', grown w fr)
    /\ nth_error (frames (grown w fr)) df' = Some (limited max_rows max_cols d).
Proof.
  intros E. eexists _, _. split; [apply (_limit_df_run _ _ _ _ _ E)|].
  apply limit_allocs_last.
Qed.

(** X1. With non-negative caps the frame [_limit_df] returns has
    [min(rows, max_rows)] rows and [min(columns, max_cols)] columns, and a
    frame already within both caps comes back as an equal copy. *)
Theorem limit_df_sizes (max_rows max_cols : Z) (w : World) (df : ref) (d : DataFrame) :
  nth_error (frames w) df = Some d ->
  (0 <= max_rows)%Z -> (0 <= max_cols)%Z ->
  exists df' w' d',
    _limit_df df max_rows max_cols w = (Return df', w')
    /\ nth_error (frames w') df' = Some d'
    /\ n_rows d' = Nat.min (n_rows d) (Z.to_nat max_rows)
    /\ n_cols d' = Nat.min (n_cols d) (Z.to_nat max_cols)
    /\ ((Z.of_nat (n_rows d) <= max_rows)%Z -> (Z.of_nat (n_cols d) <= max_cols)%Z ->
        d' = d).
Proof.
  intros E Hr Hc. destruct (_limit_df_result max_rows max_cols w df d E)
    as (df' & fr & Hrun & Hres).
  exists df', (grown w fr), (limited max_rows max_cols d).
  destruct (limited_sizes max_rows max_cols d Hr Hc) as [S1 S2].
  repeat split; try assumption.
  intros H1 H2. now apply limited_within.
Qed.

Lemma limit_df_sizes_witness :
  exists df' w' d',
    _limit_df 0 1 5 (mkWorld [sample_frame] [] "") = (Return df', w')
    /\ nth_error (frames w') df' = Some d'
    /\ n_rows d' = 1 /\ n_cols d' = 2.
Proof.
  destruct (limit_df_sizes 1 5 (mkWorld [sample_frame] [] "") 0 sample_frame
              eq_refl ltac:(lia) ltac:(lia))
    as (df' & w' & d' & H1 & H2 & H3 & H4 & _).
  exists df', w', d'. repeat split; assumption.
Defined.

(** X2. [_limit_df] keeps frames rectangular, whatever the caps, negative
    ones included: if every row of the argument has one cell per column,
    so has every row of the frame returned. *)
Theorem limit_df_keeps_rectangular (max_rows max_cols : Z) (w : World) (df : ref)
    (d : DataFrame) :
  nth_error (frames w) df = Some d ->
  rectangular d ->
  exists df' w' d',
    _limit_df df max_rows max_cols w = (Return df', w')
    /\ nth_error (frames w') df' = Some d'
    /\ rectangular d'.
Proof.
  intros E R. destruct (_limit_df_result max_rows max_cols w df d E)
    as (df' & fr & Hrun & Hres).
  exists df', (grown w fr), (limited max_rows max_cols d).
  repeat split; try assumption. now apply limited_rectangular.
Qed.

Lemma limit_df_keeps_rectangular_witness :
  exists df' w' d',
    _limit_df 0 (-1) 1 (mkWorld [sample_frame] [] "") = (Return df', w')
    /\ nth_error (frames w') df' = Some d'
    /\ rectangular d'.
Proof.
  apply (limit_df_keeps_rectangular (-1) 1 (mkWorld [sample_frame] [] "") 0
           sample_frame eq_refl).
  repeat constructor.
Defined.

(** X3. With non-negative caps a second call changes nothing: limiting the
    frame [_limit_df] returned gives a frame equal to it. *)
Theorem limit_df_twice (max_rows max_cols : Z) (w : World) (df : ref) (d : DataFrame) :
  nth_error (frames w) df = Some d ->
  (0 <= max_rows)%Z -> (0 <= max_cols)%Z ->
  exists df1 w1 df2 w2 d',
    _limit_df df max_rows max_cols w = (Return df1, w1)
    /\ _limit_df df1 max_rows max_cols w1 = (Return df2, w2)
    /\ nth_error (frames w1) df1 = Some d'
    /\ nth_error (frames w2) df2 = Some d'
    /\ nth_error (frames w2) df1 = Some d'.
Proof.
  intros E Hr Hc.
  destruct (_limit_df_result max_rows max_cols w df d E) as (df1 & fr1 & R1 & E1).
  destruct (_limit_df_result max_rows max_cols _ df1 _ E1) as (df2 & fr2 & R2 & E2).
  exists df1, (grown w fr1), df2, (grown (grown w fr1) fr2),
    (limited max_rows max_cols d).
  destruct (limited_sizes max_rows max_cols d Hr Hc) as [S1 S2].
  repeat split; try assumption.
  - rewrite E2. f_equal. apply limited_within; unfold shape; cbn [fst snd];
      unfold n_rows, n_cols in *; lia.
  - now apply grown_keeps.
Qed.

Lemma limit_df_twice_witness :
  exists df1 w1 df2 w2 d',
    _limit_df 0 1 1 (mkWorld [sample_frame] [] "") = (Return df1, w1)
    /\ _limit_df df1 1 1 w1 = (Return df2, w2)
    /\ nth_error (frames w1) df1 = Some d'
    /\ nth_error (frames w2) df2 = Some d'
    /\ nth_error (frames w2) df1 = Some d'.
Proof.
  apply (limit_df_twice 1 1 (mkWorld [sample_frame] [] "") 0 sample_frame eq_refl);
    lia.
Defined.

(** ** The shape walk: accumulator and order *)

Lemma own_parts_acc (sh : Shape) (out_parts : list string) :
  own_parts sh out_parts = out_parts ++ own_parts sh [].
Proof.
  unfold own_parts.
  destruct (sh_text_frame sh) as [tf|];
    [destruct (truthy (strip (or_empty (tf_text tf))))|];
    destruct (sh_table sh) as [tbl|]; cbn [app];
    rewrite <- ?app_assoc, ?app_nil_r; reflexivity.
Qed.

Lemma _walk_shapes_acc (n : nat) :
  forall shapes out_parts, shapes_size shapes <= n ->
  _walk_shapes shapes out_parts = out_parts ++ _walk_shapes shapes [].
Proof.
  induction n as [|n IH]; intros shapes out_parts Hn.
  - destruct shapes as [|sh rest].
    + now rewrite !_walk_shapes_nil, app_nil_r.
    + destruct sh. simpl in Hn. lia.
  - destruct shapes as [|sh rest].
    + now rewrite !_walk_shapes_nil, app_nil_r.
    + rewrite !_walk_shapes_cons.
      assert (Hsh : shape_size sh + shapes_size rest <= S n) by exact Hn.
      assert (Hpos : 1 <= shape_size sh) by (destruct sh; simpl; lia).
      rewrite (own_parts_acc sh out_parts).
      destruct (sh_shapes sh) as [children|] eqn:G.
      * pose proof (shape_size_children _ _ G) as Hc.
        rewrite (IH children (out_parts ++ own_parts sh [])) by lia.
        rewrite (IH children (own_parts sh [])) by lia.
        rewrite (IH rest ((out_parts ++ own_parts sh []) ++ _)) by lia.
        rewrite (IH rest (own_parts sh [] ++ _)) by lia.
        now rewrite <- !app_assoc.
      * rewrite (IH rest (out_parts ++ own_parts sh [])) by lia.
        rewrite (IH rest (own_parts sh [])) by lia.
        now rewrite <- !app_assoc.
Qed.

Lemma _walk_shapes_prepend (shapes : list Shape) (out_parts : list string) :
  _walk_shapes shapes out_parts = out_parts ++ _walk_shapes shapes [].
Proof. apply (_walk_shapes_acc (shapes_size shapes)). lia. Qed.

(** X4. [_walk_shapes] only appends: whatever [out_parts] holds on entry is
    kept in front, and what is appended does not depend on it. *)
Theorem walk_shapes_appends (shapes : list Shape) (out_parts : list string) :
  _walk_shapes shapes out_parts = out_parts ++ _walk_shapes shapes [].
Proof. apply _walk_shapes_prepend. Qed.

Lemma _walk_shapes_app (shapes1 shapes2 : list Shape) (out_parts : list string) :
  _walk_shapes (shapes1 ++ shapes2) out_parts
  = _walk_shapes shapes2 (_walk_shapes shapes1 out_parts).
Proof. unfold _walk_shapes. apply fold_left_app. Qed.

Lemma _walk_shapes_first (sh : Shape) (rest : list Shape) :
  _walk_shapes (sh :: rest) []
  = own_parts sh []
    ++ match sh_shapes sh with
       | Some children => _walk_shapes children []
       | None => []
       end
    ++ _walk_shapes rest [].
Proof.
  rewrite _walk_shapes_cons.
  destruct (sh_shapes sh) as [children|].
  - rewrite (_walk_shapes_prepend rest), (_walk_shapes_prepend children).
    now rewrite <- app_assoc.
  - now rewrite (_walk_shapes_prepend rest).
Qed.

(** X5. The walk is in document order, depth first: the parts of a list of
    shapes are the parts of its first shape, its own text and table and
    then those of its children when it is a group, followed by the parts
    of the remaining shapes; walking two lists one after the other gives the
    parts of the first followed by the parts of the second. *)
Theorem walk_shapes_document_order :
  (forall sh rest,
     _walk_shapes (sh :: rest) []
     = own_parts sh []
       ++ match sh_shapes sh with
          | Some children => _walk_shapes children []
          | None => []
          end
       ++ _walk_shapes rest [])
  /\ (forall shapes1 shapes2,
        _walk_shapes (shapes1 ++ shapes2) []
        = _walk_shapes shapes1 [] ++ _walk_shapes shapes2 []).
Proof.
  split; [exact _walk_shapes_first|].
  intros shapes1 shapes2. rewrite _walk_shapes_app. apply _walk_shapes_prepend.
Qed.




(** ** Slide numbering *)

Lemma slides_text_length (slides : list Slide) :
  forall i parts, length (slides_text i slides parts) = length parts + length slides.
Proof.
  induction slides as [|s rest IH]; intros i parts; simpl.
  - lia.
  - rewrite IH, length_app. simpl. lia.
Qed.

Lemma slides_text_acc (slides : list Slide) :
  forall i parts, slides_text i slides parts = parts ++ slides_text i slides [].
Proof.
  induction slides as [|s rest IH]; intros i parts; simpl.
  - now rewrite app_nil_r.
  - rewrite (IH (i + 1)%Z (parts ++ [slide_text i s])).
    rewrite (IH (i + 1)%Z [slide_text i s]).
    now rewrite <- app_assoc.
Qed.

Lemma slides_text_nth (slides : list Slide) :
  forall i k slide,
    nth_error slides k = Some slide ->
    nth_error (slides_text i slides []) k = Some (slide_text (i + Z.of_nat k) slide).
Proof.
  induction slides as [|s rest IH]; intros i k slide Hk.
  - destruct k; discriminate.
  - simpl. rewrite slides_text_acc. destruct k as [|k]; simpl in Hk.
    + inversion Hk; subst. simpl. now rewrite Z.add_0_r.
    + simpl. rewrite (IH (i + 1)%Z k slide Hk). f_equal. f_equal. lia.
Qed.

Lemma join_cons (sep first : string) (others : list string) :
  exists tail, join sep (first :: others) = (first ++ tail)%string.
Proof.
  unfold join. simpl. destruct others.
  - exists ""%string. now rewrite append_nil_r.
  - eexists. reflexivity.
Qed.

Lemma slide_text_tag (i : Z) (slide : Slide) :
  exists body, slide_text i slide = ("[Slide " ++ str_of_int i ++ "]" ++ body)%string.
Proof.
  unfold slide_text. cbv zeta.
  rewrite (_walk_shapes_prepend (slide_shapes slide)).
  set (tag := ("[Slide " ++ str_of_int i ++ "]")%string).
  set (walked := _walk_shapes (slide_shapes slide) []).
  assert (J : forall others, exists body,
             join nl (tag :: others)
             = ("[Slide " ++ str_of_int i ++ "]" ++ body)%string).
  { intros others. destruct (join_cons nl tag others) as [tail E].
    exists tail. rewrite E. subst tag. now rewrite !append_assoc. }
  destruct (notes_slide slide) as [ns|]; [destruct (notes_text_frame ns) as [tf|]|];
    try destruct (truthy (strip (or_empty (tf_text tf))));
    cbn [app]; apply J.
Qed.

(** X7. Slides are numbered from 1 in deck order: when the deck parses,
    the extractor returns the slide texts joined by blank lines, one text
    per slide, and the text of the slide at position [k] starts with the
    tag [[Slide k+1]], even when the slide has no content. *)
Theorem pptx_slides_numbered (lib : Libraries) (file : UploadedFile)
    (slides : list Slide) :
  Presentation lib (data file) = Return slides ->
  exists texts,
    yields (extract_text_from_pptx lib file)
           (Return (join (nl ++ nl)%string texts)) []
    /\ length texts = length slides
    /\ (forall k slide,
          nth_error slides k = Some slide ->
          exists body,
            nth_error texts k
            = Some ("[Slide " ++ str_of_int (Z.of_nat k + 1) ++ "]" ++ body)%string).
Proof.
  intros E. exists (slides_text 1 slides []). split; [|split].
  - apply yields_try_return. unfold pptx_try. rewrite E.
    change (@nil event) with (@nil event ++ []).
    eapply yields_bind; [apply yields_call | apply yields_ret].
  - now rewrite slides_text_length.
  - intros k slide Hk.
    pose proof (slides_text_nth slides 1 k slide Hk) as N.
    destruct (slide_text_tag (1 + Z.of_nat k) slide) as [body Hb].
    exists body. rewrite N, Hb. now rewrite Z.add_comm.
Qed.

Lemma pptx_slides_numbered_witness :
  exists texts,
    yields (extract_text_from_pptx sample_lib sample_pptx)
           (Return (join (nl ++ nl)%string texts)) []
    /\ length texts = 1.
Proof.
  destruct (pptx_slides_numbered sample_lib sample_pptx sample_deck eq_refl)
    as (texts & H1 & H2 & _).
  exists texts. split; assumption.
Defined.

(** ** Pages, sheets and empty documents *)

Lemma yields_nil_bind {A B} (m : M A) (k : A -> M B) a o :
  yields m (Return a) [] -> yields (k a) o [] -> yields (bind m k) o [].
Proof.
  intros Hm Hk. change (@nil event) with (@nil event ++ []).
  eapply yields_bind; eassumption.
Qed.

Lemma yields_value {A} (m : M A) (a a' : A) evs :
  yields m (Return a) evs -> a = a' -> yields m (Return a') evs.
Proof. now intros H <-. Qed.

Lemma pdf_loop_returns (texts : list (option string)) :
  forall text,
    yields (for_each (map Return texts)
              (fun (page : Page) text =>
                 page_text <- call page ;;
                 ret (if opt_truthy page_text
                      then text ++ or_empty page_text ++ nl else text)%string)
              text)
           (Return (text ++ concat_all (map (fun s => s ++ nl) (nonempty_texts texts)))%string)
           [].
Proof.
  induction texts as [|t texts IH]; intros text; simpl.
  - rewrite append_nil_r. apply yields_ret.
  - eapply yields_nil_bind.
    + eapply yields_nil_bind; [apply yields_call | apply yields_ret].
    + eapply yields_value; [apply IH|].
      unfold nonempty_texts. cbn [flat_map]. fold (nonempty_texts texts).
      destruct (opt_truthy t); cbn [app map concat_all fold_right];
        fold (concat_all (map (fun s => (s ++ nl)%string) (nonempty_texts texts)));
        now rewrite ?append_assoc.
Qed.

(** X8. When every page of a PDF can be read, the extractor returns the
    texts of the pages in page order, each followed by a newline; a page
    whose text is [None] or empty contributes nothing, not even the
    newline. *)
Theorem pdf_pages_in_order (lib : Libraries) (file : UploadedFile)
    (texts : list (option string)) :
  PdfReader lib (data file) = Return (map Return texts) ->
  yields (extract_text_from_pdf lib file)
         (Return (concat_all (map (fun s => s ++ nl)%string (nonempty_texts texts)))) [].
Proof.
  intros E. apply yields_try_return. unfold pdf_try. rewrite E.
  eapply yields_nil_bind; [apply yields_call|]. apply (pdf_loop_returns texts "").
Qed.

Lemma pdf_pages_in_order_witness :
  yields (extract_text_from_pdf sample_lib sample_pdf)
         (Return ("page one" ++ nl)%string) [].
Proof.
  exact (pdf_pages_in_order sample_lib sample_pdf [Some "page one"%string; None]
           eq_refl).
Defined.

Lemma pdf_loop_raises (texts : list (option string)) (e : exn) (rest : list Page) :
  forall text,
    yields (for_each (map Return texts ++ Raise e :: rest)
              (fun (page : Page) text =>
                 page_text <- call page ;;
                 ret (if opt_truthy page_text
                      then text ++ or_empty page_text ++ nl else text)%string)
              text)
           (Raise e) [].
Proof.
  induction texts as [|t texts IH]; intros text; simpl.
  - apply yields_bind_raise. apply yields_bind_raise. apply yields_call.
  - eapply yields_nil_bind; [|apply IH].
    eapply yields_nil_bind; [apply yields_call | apply yields_ret].
Qed.

(** X9. One page that cannot be read loses the whole PDF: whatever the
    pages before it gave, the extractor reports the page's error and
    returns the empty string. *)
Theorem pdf_page_failure_discards_all (lib : Libraries) (file : UploadedFile)
    (texts : list (option string)) (e : exn) (rest : list Page) :
  PdfReader lib (data file) = Return (map Return texts ++ Raise e :: rest) ->
  yields (extract_text_from_pdf lib file) (Return ""%string)
         [st_error ("Error reading PDF file " ++ name file ++ ": " ++ exn_msg e)%string].
Proof.
  intros E. unfold extract_text_from_pdf.
  change [st_error ?m] with ([] ++ [st_error m]).
  eapply yields_try_caught; [|apply yields_report].
  unfold pdf_try. rewrite E.
  eapply yields_nil_bind; [apply yields_call|]. apply pdf_loop_raises.
Qed.

Lemma pdf_page_failure_discards_all_witness :
  yields (extract_text_from_pdf broken_lib sample_pdf) (Return ""%string)
         [st_error "Error reading PDF file report.pdf: bad page"].
Proof.
  exact (pdf_page_failure_discards_all broken_lib sample_pdf [Some "page one"%string]
           (Exception "bad page") [Return (Some "page three"%string)] eq_refl).
Defined.

Lemma excel_loop_raises (lib : Libraries) (xls : Workbook) (good : list string)
    (bad : string) (rest : list string) (e : exn) :
  (forall n, In n good -> exists d, xls_parse xls n = Return d) ->
  xls_parse xls bad = Raise e ->
  forall parts,
    yields (for_each (good ++ bad :: rest)
              (fun sheet_name (parts : list string) =>
                 d <- call (xls_parse xls sheet_name) ;;
                 df <- alloc d ;;
                 df <- _limit_df df MAX_ROWS MAX_COLS ;;
                 d <- deref df ;;
                 let csv_text := to_csv lib d in
                 let part := ("[Sheet: " ++ sheet_name ++ "]" ++ nl ++ csv_text ++ nl)%string in
                 ret (parts ++ [part]))
              parts)
           (Raise e) [].
Proof.
  intros Hgood Hbad. induction good as [|n good IH]; intros parts; simpl.
  - apply yields_bind_raise. apply yields_bind_raise. rewrite Hbad. apply yields_call.
  - destruct (Hgood n (or_introl eq_refl)) as [d Hd].
    eapply yields_nil_bind; [|apply IH; intros m Hm; apply Hgood; now right].
    eapply yields_nil_bind; [rewrite Hd; apply yields_call|].
    apply yields_limited. cbv zeta. apply yields_ret.
Qed.

(** X10. One sheet that cannot be parsed loses the whole workbook: whatever
    the sheets before it gave, the extractor makes the calls of its
    [except] clause for that error and returns the empty string. *)
Theorem excel_sheet_failure_discards_all (lib : Libraries) (file : UploadedFile)
    (xls : Workbook) (good : list string) (bad : string) (rest : list string)
    (e : exn) :
  ExcelFile lib (data file) (excel_engine lib file) = Return xls ->
  sheet_names xls = good ++ bad :: rest ->
  (forall n, In n good -> exists d, xls_parse xls n = Return d) ->
  xls_parse xls bad = Raise e ->
  yields (extract_text_from_excel lib file) (Return ""%string)
         (excel_diagnostic file e).
Proof.
  intros E Hnames Hgood Hbad.
  destruct (excel_caught lib file) as (o & evs & Hbody & Hex).
  assert (Hraise : yields (excel_try lib file) (Raise e) []).
  { unfold excel_try. cbv zeta. rewrite E.
    eapply yields_nil_bind; [apply yields_call|].
    apply yields_bind_raise. rewrite Hnames. now apply excel_loop_raises. }
  destruct (yields_unique _ _ _ _ _ Hbody Hraise) as [-> ->]. exact Hex.
Qed.

Lemma excel_sheet_failure_discards_all_witness :
  yields (extract_text_from_excel broken_lib sample_xlsx) (Return ""%string)
         [st_error "Error reading Excel file book.xlsx: bad sheet"].
Proof.
  apply (excel_sheet_failure_discards_all broken_lib sample_xlsx
           [("Good"%string, Return sample_frame);
            ("Bad"%string, Raise (Exception "bad sheet"))]
           ["Good"%string] "Bad"%string [] (Exception "bad sheet") eq_refl eq_refl).
  - intros n [<-|[]]. now exists sample_frame.
  - reflexivity.
Defined.

(** X11. A document without content gives the empty string and no
    diagnostic: a PDF without pages, a DOCX without paragraphs, a workbook
    without sheets and a deck without slides all extract to [""], as a
    failed extraction does. *)
Theorem empty_documents_extract_to_nothing (lib : Libraries) (file : UploadedFile) :
  PdfReader lib (data file) = Return [] ->
  Document lib (data file) = Return [] ->
  ExcelFile lib (data file) (excel_engine lib file) = Return [] ->
  Presentation lib (data file) = Return [] ->
  yields (extract_text_from_pdf lib file) (Return ""%string) []
  /\ yields (extract_text_from_docx lib file) (Return ""%string) []
  /\ yields (extract_text_from_excel lib file) (Return ""%string) []
  /\ yields (extract_text_from_pptx lib file) (Return ""%string) [].
Proof.
  intros Epdf Edocx Exls Epptx. repeat split; apply yields_try_return.
  - unfold pdf_try. rewrite Epdf.
    eapply yields_nil_bind; [apply yields_call | apply yields_ret].
  - unfold docx_try. rewrite Edocx.
    eapply yields_nil_bind; [apply yields_call | apply yields_ret].
  - unfold excel_try. cbv zeta. rewrite Exls.
    eapply yields_nil_bind; [apply yields_call|].
    eapply yields_nil_bind; apply yields_ret.
  - unfold pptx_try. rewrite Epptx.
    eapply yields_nil_bind; [apply yields_call | apply yields_ret].
Qed.

Lemma empty_documents_extract_to_nothing_witness :
  yields (extract_text_from_pdf empty_lib sample_pdf) (Return ""%string) []
  /\ yields (extract_text_from_docx empty_lib sample_pdf) (Return ""%string) []
  /\ yields (extract_text_from_excel empty_lib sample_pdf) (Return ""%string) []
  /\ yields (extract_text_from_pptx empty_lib sample_pdf) (Return ""%string) [].
Proof.
  exact (empty_documents_extract_to_nothing empty_lib sample_pdf
           eq_refl eq_refl eq_refl eq_refl).
Defined.

(** ** The aggregator: failed files, batches, what it never does *)

Lemma extractor_try_block (lib : Libraries) (k : format) (file : UploadedFile) :
  caught_by (try_block lib k file) (extractor lib k file) (diagnostic_of k file).
Proof.
  destruct k; simpl;
    first [apply pdf_caught | apply docx_caught | apply excel_caught
          | apply csv_caught | apply pptx_caught].
Qed.

(** X12. An artifact whose extraction fails still gets its block, with
    nothing between the markers: the [try] block's calls and the
    diagnostic of its [except] clause are made, and the loop body returns
    the text so far followed by the START and END markers, exactly as for
    an unsupported artifact. *)
Theorem failed_file_gets_empty_block (lib : Libraries) (file : UploadedFile)
    (k : format) (e : exn) (evs : list event) (full_text : string) :
  dispatch file = Some k ->
  yields (try_block lib k file) (Raise e) evs ->
  yields (get_all_input_text_file lib file full_text)
         (Return (full_text ++ start_of_file file ++ end_of_file file)%string)
         (evs ++ diagnostic_of k file e).
Proof.
  intros D Hraise.
  destruct (extractor_try_block lib k file) as (o & evs' & Hbody & Hex).
  destruct (yields_unique _ _ _ _ _ Hbody Hraise) as [-> ->].
  rewrite get_all_input_text_file_dispatch. cbv zeta. rewrite D.
  rewrite <- !append_assoc.
  apply yields_calls with (evs := ((evs ++ diagnostic_of k file e) ++ []) ++ []);
    [|now rewrite !app_nil_r].
  eapply yields_bind; [|apply yields_ret].
  apply yields_try_return. eapply yields_bind; [exact Hex|].
  rewrite append_nil_r. apply yields_ret.
Qed.

Lemma failed_file_gets_empty_block_witness :
  yields (get_all_input_text_file failing_lib sample_pdf "")
         (Return ("--- START OF FILE: report.pdf ---" ++ nl ++ nl ++ nl ++ nl
                  ++ "--- END OF FILE: report.pdf ---" ++ nl ++ nl)%string)
         [st_error "Error reading PDF file report.pdf: not a PDF"].
Proof.
  apply (failed_file_gets_empty_block failing_lib sample_pdf PDF
           (Exception "not a PDF") [] ""%string eq_refl).
  apply yields_bind_raise. apply (yields_call (PdfReader failing_lib (data sample_pdf))).
Defined.

Lemma concat_all_app (l1 l2 : list string) :
  concat_all (l1 ++ l2) = (concat_all l1 ++ concat_all l2)%string.
Proof.
  induction l1 as [|s l1 IH]; simpl; [reflexivity|].
  unfold concat_all in *. simpl. now rewrite IH, append_assoc.
Qed.

(** X13. Batches compose: the text aggregated for two non-empty batches
    uploaded together is the text of the first batch alone, without notes,
    followed by the text of the second batch with the notes; no block
    depends on the other artifacts of the request. *)
Theorem batches_compose (lib : Libraries) (files1 files2 : list UploadedFile)
    (additional_context : string) (w : World) :
  files1 <> [] -> files2 <> [] ->
  exists text1 text2,
    fst (get_all_input_text lib files1 "" w) = Return (text1, true)
    /\ fst (get_all_input_text lib files2 additional_context w) = Return (text2, true)
    /\ fst (get_all_input_text lib (files1 ++ files2) additional_context w)
       = Return ((text1 ++ text2)%string, true).
Proof.
  intros H1 H2.
  assert (G1 : list_truthy files1 || truthy "" = true)
    by (destruct files1; [congruence | reflexivity]).
  assert (G2 : list_truthy files2 || truthy additional_context = true)
    by (destruct files2; [congruence | reflexivity]).
  assert (G12 : list_truthy (files1 ++ files2) || truthy additional_context = true)
    by (destruct files1; [congruence | reflexivity]).
  destruct (get_all_input_text_yields lib files1 "" G1) as [e1 Y1].
  destruct (get_all_input_text_yields lib files2 additional_context G2) as [e2 Y2].
  destruct (get_all_input_text_yields lib (files1 ++ files2) additional_context G12)
    as [e12 Y12].
  exists (aggregated lib files1 ""), (aggregated lib files2 additional_context).
  rewrite (yields_fst _ _ _ w Y1), (yields_fst _ _ _ w Y2), (yields_fst _ _ _ w Y12).
  repeat split. f_equal. f_equal.
  unfold aggregated. cbn [truthy]. rewrite append_nil_r, map_app, concat_all_app.
  apply append_assoc.
Qed.

Lemma batches_compose_witness :
  exists text1 text2,
    fst (get_all_input_text sample_lib [sample_pdf] "" empty_world)
    = Return (text1, true)
    /\ fst (get_all_input_text sample_lib [sample_csv] "note" empty_world)
       = Return (text2, true)
    /\ fst (get_all_input_text sample_lib ([sample_pdf] ++ [sample_csv]) "note"
              empty_world)
       = Return ((text1 ++ text2)%string, true).
Proof.
  apply (batches_compose sample_lib [sample_pdf] [sample_csv] "note" empty_world);
    discriminate.
Defined.

Lemma quiet_ret {A} (a : A) : quiet (ret a).
Proof. exists (Return a), []. split; [apply yields_ret | reflexivity]. Qed.

Lemma quiet_call {A} (o : outcome A) : quiet (call o).
Proof. exists o, []. split; [apply yields_call | reflexivity]. Qed.

Lemma quiet_emit (e : event) : is_generation_call e = false -> quiet (emit e).
Proof.
  intros H. exists (Return tt), [e]. split; [apply yields_emit|].
  unfold generation_calls. simpl. now rewrite H.
Qed.

Lemma quiet_bind {A B} (m : M A) (k : A -> M B) :
  quiet m -> (forall a, quiet (k a)) -> quiet (bind m k).
Proof.
  intros (o & e1 & Hm & Q1) Hk. destruct o as [a|e].
  - destruct (Hk a) as (o2 & e2 & H2 & Q2). exists o2, (e1 ++ e2). split.
    + eapply yields_bind; eassumption.
    + now rewrite generation_calls_app, Q1, Q2.
  - exists (Raise e), e1. split; [now apply yields_bind_raise | exact Q1].
Qed.

Lemma quiet_try {A} (body : M A) (handler : exn -> M A) :
  quiet body -> (forall e, quiet (handler e)) -> quiet (try_except body handler).
Proof.
  intros (o & e1 & Hb & Q1) Hh. destruct o as [a|e].
  - exists (Return a), e1. split; [now apply yields_try_return | exact Q1].
  - destruct (Hh e) as (o2 & e2 & H2 & Q2). exists o2, (e1 ++ e2). split.
    + eapply yields_try_caught; eassumption.
    + now rewrite generation_calls_app, Q1, Q2.
Qed.

Lemma quiet_for_each {A S} (xs : list A) (body : A -> S -> M S) :
  (forall x acc, quiet (body x acc)) -> forall acc, quiet (for_each xs body acc).
Proof.
  intros H. induction xs as [|x xs IH]; intros acc; simpl.
  - apply quiet_ret.
  - apply quiet_bind; [apply H | exact IH].
Qed.

Lemma quiet_limited {A} (d : DataFrame) (max_rows max_cols : Z) (k : DataFrame -> M A) :
  (forall d', quiet (k d')) ->
  quiet (df <- alloc d ;; df <- _limit_df df max_rows max_cols ;;
         d' <- deref df ;; k d').
Proof.
  intros H. destruct (H (limited max_rows max_cols d)) as (o & evs & Hk & Q).
  exists o, evs. split; [now apply yields_limited | exact Q].
Qed.

Ltac quiet_steps :=
  repeat first
    [ apply quiet_ret | apply quiet_call
    | apply quiet_emit; reflexivity
    | apply quiet_limited; intros
    | apply quiet_for_each; intros
    | apply quiet_try; [|intros]
    | apply quiet_bind; [|intros] ].

Lemma extractor_quiet (lib : Libraries) (k : format) (file : UploadedFile) :
  quiet (extractor lib k file).
Proof.
  destruct k; simpl;
    unfold extract_text_from_pdf, extract_text_from_docx, extract_text_from_excel,
      extract_text_from_csv, extract_text_from_pptx,
      pdf_try, docx_try, excel_try, csv_try, pptx_try;
    cbv zeta; quiet_steps;
    match goal with
    | e : exn |- _ => destruct e; quiet_steps
    | _ => idtac
    end.
Qed.

Lemma get_all_input_text_file_quiet (lib : Libraries) (file : UploadedFile)
    (full_text : string) :
  quiet (get_all_input_text_file lib file full_text).
Proof.
  rewrite get_all_input_text_file_dispatch. cbv zeta.
  apply quiet_bind; [|intros; apply quiet_ret].
  apply quiet_try.
  - destruct (dispatch file) as [k|].
    + apply quiet_bind; [apply extractor_quiet | intros; apply quiet_ret].
    + quiet_steps.
  - intros e. quiet_steps.
Qed.

Lemma get_all_input_text_quiet (lib : Libraries) (uploaded_files : list UploadedFile)
    (additional_context : string) :
  quiet (get_all_input_text lib uploaded_files additional_context).
Proof.
  unfold get_all_input_text. cbv zeta.
  destruct (negb (list_truthy uploaded_files) && negb (truthy additional_context));
    [apply quiet_ret|].
  apply quiet_bind; [|intros; apply quiet_ret].
  destruct (list_truthy uploaded_files); [|apply quiet_ret].
  apply quiet_for_each. intros. apply get_all_input_text_file_quiet.
Qed.

(** X14. Whatever the artifacts, the notes and the libraries do, the
    aggregator never calls the generation client, leaves the stored report
    as it is and changes no pandas object that existed before the call. *)
Theorem aggregator_only_reads (lib : Libraries) (uploaded_files : list UploadedFile)
    (additional_context : string) (w : World) :
  let w' := snd (get_all_input_text lib uploaded_files additional_context w) in
  generation_calls (events w') = generation_calls (events w)
  /\ report_output w' = report_output w
  /\ (forall r d, nth_error (frames w) r = Some d -> nth_error (frames w') r = Some d).
Proof.
  destruct (get_all_input_text_quiet lib uploaded_files additional_context)
    as (o & evs & H & Q).
  destruct (H w) as [fr E]. rewrite E. cbn [snd events report_output frames].
  split; [|split].
  - now rewrite generation_calls_app, Q, app_nil_r.
  - reflexivity.
  - intros r d Hr. apply (grown_keeps w fr r d Hr).
Qed.

(** ** The generation call and the handler *)

Lemma generate_sar_section_outcome (lib : Libraries)
    (api_key sar_item context_data : string) :
  exists evs,
    yields (generate_sar_section lib api_key sar_item context_data)
           (Return (generated lib api_key
                      (prompt_tmpl_substitute sar_item KNOWLEDGE_BASE context_data)))
           evs
    /\ generation_calls evs
       = genai_Client_new api_key
         :: match genai_Client lib api_key with
            | Return _ =>
                [generate_content "gemini-2.5-flash"
                   (prompt_tmpl_substitute sar_item KNOWLEDGE_BASE context_data)]
            | Raise _ => []
            end.
Proof.
  unfold generate_sar_section, generated. cbv zeta.
  set (prompt := prompt_tmpl_substitute sar_item KNOWLEDGE_BASE context_data).
  destruct (genai_Client lib api_key) as [u|e] eqn:Ec.
  - destruct (models_generate_content lib api_key "gemini-2.5-flash" prompt)
      as [resp|e] eqn:Eg.
    + eexists. split.
      * apply yields_try_return.
        eapply yields_bind; [apply yields_emit|].
        eapply yields_bind; [apply yields_call|].
        eapply yields_bind; [apply yields_emit|].
        eapply yields_bind; [apply yields_call | apply yields_ret].
      * reflexivity.
    + eexists. split.
      * eapply yields_try_caught.
        -- eapply yields_bind; [apply yields_emit|].
           eapply yields_bind; [apply yields_call|].
           eapply yields_bind; [apply yields_emit|].
           apply yields_bind_raise. apply yields_call.
        -- eapply yields_bind; [apply yields_emit|].
           eapply yields_bind; [apply yields_emit | apply yields_ret].
      * reflexivity.
  - eexists. split.
    + eapply yields_try_caught.
      * eapply yields_bind; [apply yields_emit|].
        apply yields_bind_raise. apply yields_call.
      * eapply yields_bind; [apply yields_emit|].
        eapply yields_bind; [apply yields_emit | apply yields_ret].
    + reflexivity.
Qed.

(** X15. [generate_sar_section] never raises.  It constructs the client
    once and, only when that succeeds, sends exactly one request, to the
    model [gemini-2.5-flash] with the prompt built from the topic, the
    knowledge base and the context; when the client or the request raises
    it returns [None]. *)
Theorem generate_sar_section_single_request (lib : Libraries)
    (api_key sar_item context_data : string) :
  let prompt := prompt_tmpl_substitute sar_item KNOWLEDGE_BASE context_data in
  exists result evs,
    yields (generate_sar_section lib api_key sar_item context_data)
           (Return result) evs
    /\ generation_calls evs
       = genai_Client_new api_key
         :: match genai_Client lib api_key with
            | Return _ => [generate_content "gemini-2.5-flash" prompt]
            | Raise _ => []
            end
    /\ ((exists e, genai_Client lib api_key = Raise e) -> result = None)
    /\ ((exists e, models_generate_content lib api_key "gemini-2.5-flash" prompt
                   = Raise e) -> result = None)
    /\ (forall u resp,
          genai_Client lib api_key = Return u ->
          models_generate_content lib api_key "gemini-2.5-flash" prompt = Return resp ->
          result = py_or (resp_text resp) (resp_output_text resp)).
Proof.
  intros prompt.
  destruct (generate_sar_section_outcome lib api_key sar_item context_data)
    as (evs & Hy & Hc).
  exists (generated lib api_key prompt), evs. split; [exact Hy|]. split; [exact Hc|].
  unfold generated. repeat split.
  - intros [e ->]. reflexivity.
  - intros [e ->]. now destruct (genai_Client lib api_key).
  - intros u resp -> ->. reflexivity.
Qed.

Lemma handler_runs_generation (lib : Libraries) (GEMINI_API_KEY : string) (c : ascii)
    (topic_tail : string) (uploaded_files : list UploadedFile)
    (additional_context : string) (w : World) :
  list_truthy uploaded_files || truthy additional_context = true ->
  let topic := String c topic_tail in
  let prompt :=
    prompt_tmpl_substitute topic KNOWLEDGE_BASE
      (aggregated lib uploaded_files additional_context) in
  exists fr evs,
    generation_calls evs
    = genai_Client_new GEMINI_API_KEY
      :: match genai_Client lib GEMINI_API_KEY with
         | Return _ => [generate_content "gemini-2.5-flash" prompt]
         | Raise _ => []
         end
    /\ generate_button_handler lib GEMINI_API_KEY true (Some topic) uploaded_files
         additional_context w
       = if opt_truthy (generated lib GEMINI_API_KEY prompt)
         then (Return tt,
               mkWorld (frames w ++ fr) (events w ++ evs)
                       (or_empty (generated lib GEMINI_API_KEY prompt)))
         else (Return tt,
               mkWorld (frames w ++ fr)
                 ((events w ++ evs) ++
                  [st_error "ไม่สามารถสร้างรายงานได้ กรุณาตรวจสอบข้อผิดพลาดและลองใหม่"])
                 "").
Proof.
  intros G topic prompt.
  destruct (get_all_input_text_quiet lib uploaded_files additional_context)
    as (o & e1 & Hq & Q1).
  destruct (get_all_input_text_yields lib uploaded_files additional_context G)
    as [e1' Hy].
  destruct (yields_unique _ _ _ _ _ Hq Hy) as [-> ->]. clear Hq.
  destruct (generate_sar_section_outcome lib GEMINI_API_KEY topic
              (aggregated lib uploaded_files additional_context))
    as (e2 & Hg & Q2).
  fold prompt in Hg, Q2.
  destruct (Hy w) as [fr1 E1].
  destruct (Hg (mkWorld (frames w ++ fr1) (events w ++ e1') (report_output w)))
    as [fr2 E2].
  exists (fr1 ++ fr2), (e1' ++ e2). split.
  - now rewrite generation_calls_app, Q1, Q2.
  - unfold generate_button_handler. subst topic. cbn [opt_truthy truthy negb].
    rewrite <- negb_orb, G. cbn [negb].
    run_bind E1. cbn [fst snd or_empty truthy].
    run_bind E2. cbn [frames events report_output] in *.
    destruct (opt_truthy (generated lib GEMINI_API_KEY prompt)).
    + unfold set_report_output. cbn [frames events]. now rewrite <- !app_assoc.
    + unfold bind, set_report_output, emit. cbn [frames events report_output].
      now rewrite <- !app_assoc.
Qed.

(** X16. When the service returns a non-empty text for a request with a
    topic and some input, the handler stores that text as the report,
    replacing the previous one, and the run has made exactly one client
    construction and one request, for the prompt of the selected topic and
    the aggregated input. *)
Theorem successful_generation_stores_report (lib : Libraries)
    (GEMINI_API_KEY : string) (c : ascii) (topic_tail : string)
    (uploaded_files : list UploadedFile) (additional_context text : string)
    (w : World) :
  list_truthy uploaded_files || truthy additional_context = true ->
  let topic := String c topic_tail in
  let prompt :=
    prompt_tmpl_substitute topic KNOWLEDGE_BASE
      (aggregated lib uploaded_files additional_context) in
  generated lib GEMINI_API_KEY prompt = Some text ->
  truthy text = true ->
  let w' := snd (generate_button_handler lib GEMINI_API_KEY true (Some topic)
                   uploaded_files additional_context w) in
  report_output w' = text
  /\ generation_calls (events w')
     = generation_calls (events w)
       ++ [genai_Client_new GEMINI_API_KEY; generate_content "gemini-2.5-flash" prompt].
Proof.
  intros G topic prompt Hgen Ht.
  destruct (handler_runs_generation lib GEMINI_API_KEY c topic_tail uploaded_files
              additional_context w G) as (fr & evs & Hcalls & Hrun).
  fold topic in Hrun. fold prompt in Hrun, Hcalls.
  cbv zeta. rewrite Hrun, Hgen. cbn [opt_truthy]. rewrite Ht.
  cbn [snd report_output events or_empty]. rewrite Ht. split; [reflexivity|].
  rewrite generation_calls_app, Hcalls.
  unfold generated in Hgen. now destruct (genai_Client lib GEMINI_API_KEY).
Qed.

Lemma successful_generation_stores_report_witness :
  report_output
    (snd (generate_button_handler sample_lib "key" true (Some "1. topic"%string)
            [sample_pdf] "" (mkWorld [] [] "old report")))
  = "report"%string.
Proof.
  exact (proj1 (successful_generation_stores_report sample_lib "key" "1"%char
                  ". topic" [sample_pdf] "" "report" (mkWorld [] [] "old report")
                  eq_refl eq_refl eq_refl)).
Defined.

(** X17. When the generation fails, by an exception of the client or of the
    request or by an empty answer, the handler clears the stored report and
    ends with the error message of the failed generation. *)
Theorem failed_generation_clears_report (lib : Libraries)
    (GEMINI_API_KEY : string) (c : ascii) (topic_tail : string)
    (uploaded_files : list UploadedFile) (additional_context : string) (w : World) :
  list_truthy uploaded_files || truthy additional_context = true ->
  let topic := String c topic_tail in
  let prompt :=
    prompt_tmpl_substitute topic KNOWLEDGE_BASE
      (aggregated lib uploaded_files additional_context) in
  opt_truthy (generated lib GEMINI_API_KEY prompt) = false ->
  let w' := snd (generate_button_handler lib GEMINI_API_KEY true (Some topic)
                   uploaded_files additional_context w) in
  report_output w' = ""%string
  /\ exists evs,
       events w'
       = events w ++ evs
         ++ [st_error "ไม่สามารถสร้างรายงานได้ กรุณาตรวจสอบข้อผิดพลาดและลองใหม่"].
Proof.
  intros G topic prompt Hgen.
  destruct (handler_runs_generation lib GEMINI_API_KEY c topic_tail uploaded_files
              additional_context w G) as (fr & evs & Hcalls & Hrun).
  fold topic in Hrun. fold prompt in Hrun.
  cbv zeta. rewrite Hrun, Hgen. cbn [snd report_output events].
  split; [reflexivity|]. exists evs. now rewrite <- app_assoc.
Qed.

Lemma failed_generation_clears_report_witness :
  report_output
    (snd (generate_button_handler failing_lib "key" true (Some "1. topic"%string)
            [] "some notes" (mkWorld [] [] "old report")))
  = ""%string.
Proof.
  exact (proj1 (failed_generation_clears_report failing_lib "key" "1"%char
                  ". topic" [] "some notes" (mkWorld [] [] "old report")
                  eq_refl eq_refl)).
Defined.

(** ** The prompt *)

Lemma prefix_append (a b : string) : prefix a (a ++ b)%string = true.
Proof.
  induction a as [|c a IH]; simpl; [now destruct b|].
  destruct (ascii_dec c c); [exact IH | congruence].
Qed.

Lemma contains_here (a b : string) : contains a (a ++ b)%string = true.
Proof.
  assert (U : forall sub s, prefix sub s = true -> contains sub s = true).
  { intros sub s H. destruct s; cbn [contains]; rewrite H; reflexivity. }
  apply U, prefix_append.
Qed.

Lemma contains_skip (sub a s : string) :
  contains sub s = true -> contains sub (a ++ s)%string = true.
Proof.
  intros H. induction a as [|c a IH]; [exact H|].
  cbn [append contains]. rewrite IH. apply orb_true_r.
Qed.

(** X18. The prompt carries its three arguments verbatim: the topic, the
    knowledge base and the aggregated context each occur in the text sent
    to the service, whatever characters they hold. *)
Theorem prompt_contains_arguments (sar_item knowledge_base context_data : string) :
  contains sar_item (prompt_tmpl_substitute sar_item knowledge_base context_data) = true
  /\ contains knowledge_base
       (prompt_tmpl_substitute sar_item knowledge_base context_data) = true
  /\ contains context_data
       (prompt_tmpl_substitute sar_item knowledge_base context_data) = true.
Proof.
  unfold prompt_tmpl_substitute.
  repeat split; repeat first [apply contains_here | apply contains_skip].
Qed.

(** ** Accepted uploads and small tables *)

(** X19. Every file the uploader accepts is dispatched: a name that ends,
    in any letter case, with a dot and one of the uploader's extensions is
    given to some extractor, whatever its declared media type; its block
    holds that extractor's text and the loop body makes the extractor's
    calls and no other, so no "unsupported" warning of its own. *)
Theorem accepted_uploads_are_dispatched (lib : Libraries) (file : UploadedFile)
    (ext full_text : string) :
  In ext uploader_types ->
  endswith (lower (name file)) ("." ++ ext)%string = true ->
  exists k t evs,
    dispatch file = Some k
    /\ yields (extractor lib k file) (Return t) evs
    /\ yields (get_all_input_text_file lib file full_text)
         (Return (full_text ++ start_of_file file ++ t ++ end_of_file file)%string)
         evs.
Proof.
  intros Hin Hend.
  assert (D : exists k, dispatch file = Some k).
  { unfold dispatch, formats_in_order. cbn [find suffix_matches].
    unfold uploader_types in Hin. cbn [In] in Hin.
    repeat match type of Hin with
           | _ \/ _ => destruct Hin as [Hin|Hin]
           end; try contradiction; subst ext; cbn [append] in Hend;
      rewrite ?Hend, ?orb_true_r; cbn [orb];
      repeat match goal with
             | |- context [if ?c then _ else _] => destruct c
             end; eauto. }
  destruct D as [k D].
  destruct (extractor_returns lib file k) as (t & evs & Hr).
  exists k, t, evs. split; [exact D|]. split; [exact Hr|].
  rewrite get_all_input_text_file_dispatch. cbv zeta. rewrite D.
  rewrite <- !append_assoc.
  apply yields_calls with (evs := (evs ++ []) ++ []); [|now rewrite !app_nil_r].
  eapply yields_bind; [|apply yields_ret].
  apply yields_try_return. eapply yields_bind; [exact Hr | apply yields_ret].
Qed.

Lemma accepted_uploads_are_dispatched_witness :
  exists k t evs,
    dispatch sample_mislabelled = Some k
    /\ yields (extractor sample_lib k sample_mislabelled) (Return t) evs
    /\ yields (get_all_input_text_file sample_lib sample_mislabelled "")
         (Return ("" ++ start_of_file sample_mislabelled ++ t
                  ++ end_of_file sample_mislabelled)%string) evs.
Proof.
  apply (accepted_uploads_are_dispatched sample_lib sample_mislabelled "docx" "").
  - right. left. reflexivity.
  - reflexivity.
Defined.

(** X20. A CSV table within both caps passes through untouched: when the
    frame read has at most [MAX_ROWS] rows and [MAX_COLS] columns, the
    extractor returns the serialisation of that very frame. *)
Theorem small_csv_is_not_truncated (lib : Libraries) (file : UploadedFile)
    (d : DataFrame) :
  read_csv lib (data file) = Return d ->
  (Z.of_nat (n_rows d) <= MAX_ROWS)%Z ->
  (Z.of_nat (n_cols d) <= MAX_COLS)%Z ->
  yields (extract_text_from_csv lib file) (Return (to_csv lib d)) [].
Proof.
  intros E Hr Hc.
  eapply yields_value; [apply extract_text_from_csv_limited; exact E|].
  f_equal. exact (limited_within MAX_ROWS MAX_COLS d Hr Hc).
Qed.

Lemma small_csv_is_not_truncated_witness :
  yields (extract_text_from_csv sample_lib sample_csv)
         (Return (sample_to_csv sample_frame)) [].
Proof.
  apply (small_csv_is_not_truncated sample_lib sample_csv sample_frame eq_refl);
    unfold MAX_ROWS, MAX_COLS; simpl; lia.
Defined.
